(** * news-checker: content acquisition and cross-reference engine

    A shallow embedding of [news_analyzer.py] (class [NewsAnalyzer]):
    [fetch_with_newspaper3k], [try_rss_feed], [find_related_articles],
    [analyze_related_articles] and [fetch_article_content].

    Conventions of the embedding.
    - Python [str] is [string]; the text primitives below ([strip],
      [lower], [isupper], the word class of the regular expressions) are
      those of Python on ASCII text.
    - Python dictionaries with a fixed set of keys are records; a key that
      may be missing is an [option] field, and [d.get(k, dflt)] reads it
      with [get].
    - The network and the parsing libraries (requests, BeautifulSoup,
      feedparser, newspaper3k, urllib) are oracles over an abstract world
      [W], threaded through a state monad together with the trace of the
      fetch strategies that were invoked.
    - An exception raised by a library call is the [None] outcome of its
      oracle; the [try]/[except] blocks of the source are the matches on
      those outcomes. *)

From Stdlib Require Import String Ascii List ZArith Lia Bool Arith.
From Stdlib Require Import Permutation DecimalString.
Import ListNotations.

Local Open Scope string_scope.
Local Open Scope list_scope.
Local Open Scope nat_scope.

(** ** Python text primitives *)

Module Py.

(** [len(s)] *)
Definition len (s : string) : nat := String.length s.

(** truth value of a string: [if s:] *)
Definition truthy (s : string) : bool :=
  match s with EmptyString => false | String _ _ => true end.

(** [a or b] on strings *)
Definition or_else (a b : string) : string := if truthy a then a else b.

(** [d.get(k, dflt)] on a key that may be missing *)
Definition get {A : Type} (field : option A) (dflt : A) : A :=
  match field with Some v => v | None => dflt end.

(** [c.isspace()] *)
Definition is_space (c : ascii) : bool :=
  let n := nat_of_ascii c in
  ((9 <=? n) && (n <=? 13)) || ((28 <=? n) && (n <=? 32)).

Definition is_upper_char (c : ascii) : bool :=
  let n := nat_of_ascii c in (65 <=? n) && (n <=? 90).

Definition is_lower_char (c : ascii) : bool :=
  let n := nat_of_ascii c in (97 <=? n) && (n <=? 122).

Definition is_digit_char (c : ascii) : bool :=
  let n := nat_of_ascii c in (48 <=? n) && (n <=? 57).

(** the class [\w] *)
Definition is_word_char (c : ascii) : bool :=
  is_upper_char c || is_lower_char c || is_digit_char c
  || (nat_of_ascii c =? 95).

Fixpoint lstrip (s : string) : string :=
  match s with
  | EmptyString => EmptyString
  | String c s' => if is_space c then lstrip s' else s
  end.

Fixpoint rstrip (s : string) : string :=
  match s with
  | EmptyString => EmptyString
  | String c s' =>
      match rstrip s' with
      | EmptyString => if is_space c then EmptyString else String c EmptyString
      | r => String c r
      end
  end.

(** [s.strip()] *)
Definition strip (s : string) : string := rstrip (lstrip s).

Definition lower_char (c : ascii) : ascii :=
  if is_upper_char c then ascii_of_nat (nat_of_ascii c + 32) else c.

(** [s.lower()] *)
Fixpoint lower (s : string) : string :=
  match s with
  | EmptyString => EmptyString
  | String c s' => String (lower_char c) (lower s')
  end.

Fixpoint existsb_char (p : ascii -> bool) (s : string) : bool :=
  match s with
  | EmptyString => false
  | String c s' => p c || existsb_char p s'
  end.

(** [s.isupper()]: some cased character, and no lowercase one *)
Definition isupper (s : string) : bool :=
  existsb_char is_upper_char s && negb (existsb_char is_lower_char s).

(** [s[:n]] for [n >= 0] *)
Fixpoint take (n : nat) (s : string) : string :=
  match n, s with
  | S n', String c s' => String c (take n' s')
  | _, _ => EmptyString
  end.

(** [s.startswith(p)] *)
Definition startswith (s p : string) : bool := String.prefix p s.

(** [needle in hay] *)
Fixpoint str_in (needle hay : string) : bool :=
  String.prefix needle hay
  || match hay with
     | EmptyString => false
     | String _ hay' => str_in needle hay'
     end.

(** [s.split(sep)] with a one-character separator *)
Fixpoint split (sep : ascii) (s : string) : list string :=
  match s with
  | EmptyString => [EmptyString]
  | String c s' =>
      if Ascii.eqb c sep then EmptyString :: split sep s'
      else match split sep s' with
           | x :: xs => String c x :: xs
           | [] => [String c EmptyString]
           end
  end.

Definition newline : ascii := ascii_of_nat 10.

(** ['\n'.join(ls)] *)
Definition join_nl (ls : list string) : string :=
  String.concat (String newline EmptyString) ls.

(** [l[:k]] on a list, for any integer [k] *)
Definition slice_to {A : Type} (k : Z) (l : list A) : list A :=
  if (0 <=? k)%Z then firstn (Z.to_nat k) l
  else firstn (length l - Z.to_nat (- k)) l.

(** maximal runs of word characters, left to right *)
Definition flush (cur : string) : list string :=
  if truthy cur then [cur] else [].

Fixpoint word_runs (cur s : string) : list string :=
  match s with
  | EmptyString => flush cur
  | String c s' =>
      if is_word_char c then word_runs (cur ++ String c EmptyString)%string s'
      else flush cur ++ word_runs EmptyString s'
  end.

(** [re.findall(r'\b\w{n,}\b', s)]: a match starts and ends at a word
    boundary, so the matches are the maximal runs of at least [n] word
    characters *)
Definition findall_words (n : nat) (s : string) : list string :=
  filter (fun w => n <=? len w) (word_runs EmptyString s).

(** [str(n)] for a non-negative integer *)
Definition str_of_nat (n : nat) : string :=
  NilZero.string_of_uint (Nat.to_uint n).

(** Python sets of strings.  A set is built from the list of its
    insertions; [list(s)] enumerates it in an order the language does not
    fix (it depends on the hash seed of the process), so the order is a
    parameter: any function returning the distinct elements. *)
Definition set_of (l : list string) : list string := nodup string_dec l.

Record SetOrder : Type := {
  list_of_set : list string -> list string;
  list_of_set_perm : forall l, Permutation (list_of_set l) (set_of l)
}.

Definition mem (x : string) (s : list string) : bool :=
  if in_dec string_dec x s then true else false.

(** [a.intersection(b)], [a - b], [a.union(b)] *)
Definition intersection (a b : list string) : list string :=
  filter (fun x => mem x b) a.
Definition difference (a b : list string) : list string :=
  filter (fun x => negb (mem x b)) a.
Definition union (a b : list string) : list string := a ++ b.

(** insertion order is one admissible enumeration *)
Definition insertion_order : SetOrder :=
  {| list_of_set := set_of;
     list_of_set_perm := fun l => Permutation_refl (set_of l) |}.

End Py.

(** ** Data model *)

(** The dictionary returned by every fetch strategy and by
    [fetch_article_content]. *)
Record FetchResult : Type := mkFetchResult {
  fr_success : bool;
  fr_title : option string;
  fr_content : option string;
  fr_url : option string;
  fr_method : option string;
  fr_error : option string;
  fr_warning : option string;
  fr_suggestion : option string;
  fr_content_length : option nat;
  fr_status_code : option nat
}.

(** [{"success": False, "error": msg}] *)
Definition failure (msg : string) : FetchResult :=
  mkFetchResult false None None None None (Some msg) None None None None.

(** [{"success": False, "error": msg, "url": url}], with the optional
    suggestion *)
Definition failure_at (msg url : string) (suggestion : option string) : FetchResult :=
  mkFetchResult false None None (Some url) None (Some msg) None suggestion None None.

(** [result.get("content", "")] *)
Definition content_of (r : FetchResult) : string := Py.get (fr_content r) "".

(** The article object of newspaper3k after [download()] and [parse()]. *)
Record Article : Type := mkArticle {
  article_title : string;
  article_text : string
}.

(** One entry of a parsed feed. *)
Record Entry : Type := mkEntry {
  e_link : option string;
  e_title : option string;
  e_summary : option string;
  e_description : option string;
  e_published : option string
}.

(** What the source reads from an element of the parsed page. *)
Record Element : Type := mkElement {
  el_attr_content : option string; (* element.get('content') *)
  el_text : string;                (* element.get_text() *)
  el_text_strip : string;          (* element.get_text(strip=True) *)
  el_text_lines : string           (* element.get_text(separator='\n', strip=True) *)
}.

Record Anchor : Type := mkAnchor {
  a_href : option string;          (* link.get('href') *)
  a_text : string                  (* link.get_text(strip=True) *)
}.

(** The parsed page, after the script, style, nav, header, footer and aside
    elements have been removed. *)
Record Soup : Type := mkSoup {
  soup_find : string -> option (string * string) -> option Element;
  soup_select_one : string -> option (option Element); (* None: raises *)
  soup_find_all_p : list Element;
  soup_find_all_div : list Element; (* divs whose class names content, article or story *)
  soup_body : option Element;
  soup_select : string -> list Anchor
}.

Record HttpResponse : Type := mkHttpResponse {
  status_code : nat;
  http_error_text : string;        (* str(e) of the error of raise_for_status() *)
  soup : Soup
}.

(** Outcome of [session.get(url, timeout=20, allow_redirects=True)]. *)
Inductive HttpOutcome : Type :=
| Timeout
| ConnectionError
| OtherException (msg : string)
| Responded (response : HttpResponse).

Inductive Source : Type := rss_feed | page_links.

Record RelatedCandidate : Type := mkRelatedCandidate {
  rc_url : string;
  rc_title : string;
  rc_summary : string;
  rc_relevance_score : Z;
  rc_published : option string;
  rc_source : Source
}.

Record Comparison : Type := mkComparison {
  common_topics : list string;
  topics_in_related_not_in_current : list string;
  topics_in_current_not_in_related : list string;
  information_in_related_not_in_current : option (list string)
}.

Record ArticleAnalysis : Type := mkArticleAnalysis {
  aa_url : string;
  aa_title : string;
  aa_relevance_score : Z;
  aa_summary : string;
  aa_comparison : Comparison;
  aa_full_content_available : bool;
  aa_content_length : option nat
}.

Record RelatedAnalysis : Type := mkRelatedAnalysis {
  related_articles_found : bool;
  message : option string;
  total_found : option nat;
  articles : option (list ArticleAnalysis)
}.

(** The fetch strategies, and the trace of their invocations. *)
Inductive Strategy : Type :=
| DirectHttp | Newspaper3k | RssFeed | Selenium | Playwright.

Definition Event : Type := (Strategy * string)%type.

(** The environment of the analyzer: the libraries it calls and the
    module-level flag of the optional import. *)
Record Env (W : Type) : Type := mkEnv {
  NEWSPAPER_AVAILABLE : bool;
  (* Article(url); download(); parse() -- None: an exception *)
  article_download_parse : string -> W -> option Article * W;
  (* feedparser.parse(feed_url).entries -- None: an exception *)
  feedparser_parse : string -> W -> option (list Entry) * W;
  (* session.get of fetch_article_content *)
  session_get : string -> W -> HttpOutcome * W;
  (* requests.get of find_related_articles -- None: an exception *)
  requests_get : string -> W -> option HttpResponse * W;
  (* f"{parsed.scheme}://{parsed.netloc}" of urlparse(url) -- None: an exception *)
  urlparse_base : string -> option string;
  (* urljoin(base_url, href) -- None: an exception *)
  urljoin : string -> string -> option string;
  (* iteration order of sets *)
  set_order : Py.SetOrder
}.

Arguments NEWSPAPER_AVAILABLE {W} _.
Arguments article_download_parse {W} _ _ _.
Arguments feedparser_parse {W} _ _ _.
Arguments session_get {W} _ _ _.
Arguments requests_get {W} _ _ _.
Arguments urlparse_base {W} _ _.
Arguments urljoin {W} _ _ _.
Arguments set_order {W} _.

(** ** The state monad of the engine *)

Record State (W : Type) : Type := mkState {
  world : W;
  trace : list Event
}.

Arguments mkState {W} _ _.
Arguments world {W} _.
Arguments trace {W} _.

Definition M (W A : Type) : Type := State W -> A * State W.

Definition ret {W A : Type} (a : A) : M W A := fun st => (a, st).

Definition bind {W A B : Type} (m : M W A) (k : A -> M W B) : M W B :=
  fun st => let (a, st') := m st in k a st'.

Declare Scope engine_scope.
Delimit Scope engine_scope with engine.
Notation "x <- m ;; k" := (bind m (fun x => k))
  (at level 61, m at next level, right associativity) : engine_scope.
Notation "m ;;; k" := (bind m (fun _ => k))
  (at level 61, right associativity) : engine_scope.

(** a strategy function is entered *)
Definition log {W : Type} (s : Strategy) (url : string) : M W unit :=
  fun st => (tt, mkState (world st) (trace st ++ [(s, url)])).

(** a library call *)
Definition call {W A : Type} (oracle : W -> A * W) : M W A :=
  fun st => let (a, w) := oracle (world st) in (a, mkState w (trace st)).

(** a computation only ever appends to the trace *)
Definition extends_trace {W A : Type} (m : M W A) : Prop :=
  forall st, exists more, trace (snd (m st)) = trace st ++ more.

(** ** The analyzer *)

Section Engine.

Variable W : Type.
Variable env : Env W.

Local Open Scope engine_scope.

Definition Fetch : Type := M W FetchResult.

(** *** [fetch_with_newspaper3k] *)

Definition fetch_with_newspaper3k (url : string) : Fetch :=
  log Newspaper3k url ;;;
  if negb (NEWSPAPER_AVAILABLE env) then ret (failure "newspaper3k not installed")
  else
    article <- call (article_download_parse env url) ;;
    match article with
    | Some article =>
        if Py.truthy (article_text article)
           && (50 <? Py.len (Py.strip (article_text article)))
        then ret (mkFetchResult true
                    (Some (Py.or_else (article_title article) "No title found"))
                    (Some (Py.strip (article_text article)))
                    (Some url) (Some "newspaper3k") None None None None None)
        else ret (failure "newspaper3k failed to extract content")
    | None => ret (failure "newspaper3k failed to extract content")
    end.

(** *** [try_rss_feed] *)

Definition rss_paths : list string :=
  ["/feed"; "/rss"; "/feeds/all.rss"; "/rss.xml"; "/feed.xml"].

(** [url in entry.get('link', '') or entry.get('link', '') in url] *)
Definition entry_matches (url : string) (entry : Entry) : bool :=
  Py.str_in url (Py.get (e_link entry) "")
  || Py.str_in (Py.get (e_link entry) "") url.

(** the summary of an entry:
    [entry.get('summary', '') or entry.get('description', '')] *)
Definition entry_summary (entry : Entry) : string :=
  Py.or_else (Py.get (e_summary entry) "") (Py.get (e_description entry) "").

Definition rss_failure : FetchResult :=
  failure "RSS feed not found or doesn't contain article".

Fixpoint try_rss_paths (base_url url : string) (paths : list string) : Fetch :=
  match paths with
  | [] => ret rss_failure
  | path :: paths' =>
      feed <- call (feedparser_parse env (base_url ++ path)%string) ;;
      match feed with
      | None => try_rss_paths base_url url paths'
      | Some entries =>
          match find (entry_matches url) (firstn 10 entries) with
          | Some entry =>
              ret (mkFetchResult true
                     (Some (Py.get (e_title entry) "No title"))
                     (Some (entry_summary entry))
                     (Some url) (Some "rss_feed") None None None None None)
          | None => try_rss_paths base_url url paths'
          end
      end
  end.

Definition try_rss_feed (url : string) : Fetch :=
  log RssFeed url ;;;
  match urlparse_base env url with
  | Some base_url => try_rss_paths base_url url rss_paths
  | None => ret rss_failure
  end.

(** *** [fetch_article_content] *)

(** [("newspaper3k", self.fetch_with_newspaper3k), ("RSS feed", self.try_rss_feed)] *)
Definition fallback_methods : list (string * (string -> Fetch)) :=
  [("newspaper3k", fetch_with_newspaper3k); ("RSS feed", try_rss_feed)].

(** the loop over the fallback methods: the first result that passes
    [accept] is returned *)
Fixpoint try_fallbacks (accept : FetchResult -> bool)
         (methods : list (string * (string -> Fetch))) (url : string)
  : M W (option FetchResult) :=
  match methods with
  | [] => ret None
  | (_, method_func) :: methods' =>
      result <- method_func url ;;
      if accept result then ret (Some result)
      else try_fallbacks accept methods' url
  end.

(** [result.get("success")] and [content and len(content) > 50] *)
Definition long_enough (result : FetchResult) : bool :=
  fr_success result
  && (Py.truthy (content_of result) && (50 <? Py.len (content_of result))).

Definition title_selectors : list (string * option (string * string)) :=
  [("meta", Some ("property", "og:title"));
   ("meta", Some ("name", "twitter:title"));
   ("h1", None);
   ("title", None)].

Fixpoint extract_title (page : Soup)
         (selectors : list (string * option (string * string)))
         (title_text : string) : string :=
  match selectors with
  | [] => title_text
  | (tag, attrs) :: selectors' =>
      match soup_find page tag attrs with
      | Some element =>
          let title_text :=
            Py.or_else (Py.get (el_attr_content element) "") (el_text element) in
          if Py.truthy title_text && Py.truthy (Py.strip title_text)
          then Py.strip title_text
          else extract_title page selectors' title_text
      | None => extract_title page selectors' title_text
      end
  end.

(** the attribute selectors [[name="value"]] and [[name*="value"]] *)
Definition quoted (value : string) : string :=
  (String (ascii_of_nat 34) value ++ String (ascii_of_nat 34) EmptyString)%string.
Definition attr_is (name value : string) : string :=
  ("[" ++ name ++ "=" ++ quoted value ++ "]")%string.
Definition attr_has (name value : string) : string :=
  ("[" ++ name ++ "*=" ++ quoted value ++ "]")%string.

Definition content_selectors : list string :=
  ["article"; attr_is "role" "article"; ".article-content"; ".article-body";
   ".post-content"; ".story-body"; ".content-body"; ".entry-content";
   ".post-body"; ".article-text"; ".article-main"; ".story-content";
   ".article-wrapper"; ".content-wrapper"; attr_has "class" "article";
   attr_has "class" "story"; attr_has "class" "content";
   attr_has "class" "post"; attr_has "class" "entry"; "main";
   ".main-content"; "#main-content"; "#article-content"; "#story-content";
   attr_has "id" "article"; attr_has "id" "content"; attr_has "id" "story"].

(** the loop over [content_selectors]: every element found overwrites
    [article_content]; the loop stops at the first text longer than 150 *)
Fixpoint select_content (page : Soup) (selectors : list string)
         (article_content : option string) : option string :=
  match selectors with
  | [] => article_content
  | selector :: selectors' =>
      match soup_select_one page selector with
      | Some (Some article) =>
          let text := el_text_lines article in
          if 150 <? Py.len text then Some text
          else select_content page selectors' (Some text)
      | Some None => select_content page selectors' article_content
      | None => select_content page selectors' article_content
      end
  end.

(** [not article_content or len(article_content) < n] *)
Definition lacking (article_content : option string) (n : nat) : bool :=
  match article_content with
  | None => true
  | Some text => negb (Py.truthy text) || (Py.len text <? n)
  end.

(** [article_content and len(article_content) >= n] *)
Definition at_least (article_content : option string) (n : nat) : bool :=
  match article_content with
  | None => false
  | Some text => Py.truthy text && (n <=? Py.len text)
  end.

(** [max(texts, key=len)]: the first of the longest *)
Fixpoint longest (best : string) (texts : list string) : string :=
  match texts with
  | [] => best
  | text :: texts' =>
      longest (if Py.len best <? Py.len text then text else best) texts'
  end.

Definition paragraphs_step (page : Soup) (article_content : option string)
  : option string :=
  if lacking article_content 150 then
    let para_texts :=
      filter (fun t => Py.truthy t && (20 <? Py.len t))
             (map el_text_strip (soup_find_all_p page)) in
    match para_texts with
    | [] => article_content
    | _ :: _ => Some (Py.join_nl para_texts)
    end
  else article_content.

Definition divs_step (page : Soup) (article_content : option string)
  : option string :=
  if lacking article_content 100 then
    let div_texts :=
      filter (fun t => 100 <? Py.len t)
             (map el_text_lines (soup_find_all_div page)) in
    match div_texts with
    | [] => article_content
    | text :: texts => Some (longest text texts)
    end
  else article_content.

Definition body_step (page : Soup) (article_content : option string)
  : option string :=
  if lacking article_content 80 then
    match soup_body page with
    | Some body => Some (el_text_lines body)
    | None => article_content
    end
  else article_content.

(** the content found in the page, before any cleaning *)
Definition extract_content (page : Soup) : option string :=
  body_step page
    (divs_step page
       (paragraphs_step page (select_content page content_selectors None))).

(** the cleaning of a partial extraction (content of 50 to 79 characters) *)
Definition clean_partial (article_content : string) : string :=
  let lines :=
    map Py.strip
        (filter (fun line => Py.truthy (Py.strip line)
                             && (10 <? Py.len (Py.strip line)))
                (Py.split Py.newline article_content)) in
  Py.join_nl (firstn 100 lines).

(** the cleaning of an extraction of at least 80 characters: [lines] and
    [filtered_lines] of the source *)
Definition lines_of (article_content : string) : list string :=
  map Py.strip
      (filter (fun line => Py.truthy (Py.strip line)
                           && (5 <? Py.len (Py.strip line)))
              (Py.split Py.newline article_content)).

Definition keeps (line : string) : bool :=
  (8 <? Py.len line) && negb (Py.isupper line && (Py.len line <? 30)).

Definition filtered_lines (article_content : string) : list string :=
  filter keeps (lines_of article_content).

Definition clean_content (article_content : string) : string :=
  Py.join_nl (firstn 200 (filtered_lines article_content)).

Definition success_result (title_text article_content url method : string)
           (warning : option string) : FetchResult :=
  mkFetchResult true (Some title_text) (Some article_content) (Some url)
                (Some method) None warning None
                (Some (Py.len article_content)) None.

(** the code after [soup] is built *)
Definition extract (url : string) (use_fallbacks : bool) (page : Soup)
  : M W (option FetchResult) :=
  let title_text := extract_title page title_selectors "No title found" in
  let article_content := extract_content page in
  if lacking article_content 80 then
    fallback <- (if use_fallbacks
                 then try_fallbacks long_enough fallback_methods url
                 else ret None) ;;
    match fallback with
    | Some result => ret (Some result)
    | None =>
        if at_least article_content 50 then
          ret (Some (success_result title_text
                       (clean_partial (Py.get article_content "")) url
                       "requests (partial extraction)"
                       (Some "Content may be incomplete - consider manual paste for full article")))
        else
          ret (Some (failure_at
                       "Could not extract sufficient content from the article. The page structure may not be supported."
                       url
                       (Some "Try copying the article content manually, use browser automation (Selenium/Playwright), or use a different news source.")))
    end
  else
    let article_content := clean_content (Py.get article_content "") in
    if 80 <=? Py.len article_content then
      ret (Some (success_result title_text article_content url "requests" None))
    else
      fallback <- (if use_fallbacks
                   then try_fallbacks long_enough fallback_methods url
                   else ret None) ;;
      match fallback with
      | Some result => ret (Some result)
      | None =>
          if Py.truthy article_content && (50 <=? Py.len article_content) then
            ret (Some (success_result title_text article_content url
                         "requests (partial)" (Some "Content may be incomplete")))
          else ret None (* the function falls off its end *)
      end.

(** the fallbacks of the 401 and 403 branches: the first successful
    result is returned, whatever its content *)
Definition blocked (url : string) (use_fallbacks : bool)
           (msg suggestion : string) : M W (option FetchResult) :=
  fallback <- (if use_fallbacks
               then try_fallbacks fr_success fallback_methods url
               else ret None) ;;
  match fallback with
  | Some result => ret (Some result)
  | None => ret (Some (failure_at msg url (Some suggestion)))
  end.

(** [response.raise_for_status()] raises on 4xx and 5xx *)
Definition raises_for_status (status : nat) : bool :=
  (400 <=? status) && (status <? 600).

Definition handle_response (url : string) (use_fallbacks : bool)
           (response : HttpResponse) : M W (option FetchResult) :=
  if status_code response =? 401 then
    blocked url use_fallbacks
      "401 Forbidden: This website requires authentication or blocks automated access."
      "Options: 1) Use browser automation (Selenium/Playwright), 2) Try newspaper3k library, 3) Check RSS feed, 4) Copy article content manually."
  else if status_code response =? 403 then
    blocked url use_fallbacks
      "403 Forbidden: Access denied. This website may block automated requests."
      "This site blocks automated access. Options: 1) Use browser automation (Selenium/Playwright), 2) Try newspaper3k library, 3) Check for RSS feed, 4) Copy article content manually."
  else if status_code response =? 404 then
    ret (Some (failure_at
                 "404 Not Found: The article URL doesn't exist or has been removed."
                 url None))
  else if raises_for_status (status_code response) then
    ret (Some (mkFetchResult false None None (Some url) None
                 (Some ("HTTP Error " ++ Py.str_of_nat (status_code response)
                        ++ ": " ++ http_error_text response)%string)
                 None None None (Some (status_code response))))
  else extract url use_fallbacks (soup response).

Definition direct_http (url : string) (use_fallbacks : bool)
  : M W (option FetchResult) :=
  log DirectHttp url ;;;
  outcome <- call (session_get env url) ;;
  match outcome with
  | Timeout =>
      ret (Some (failure_at
                   "Request timed out. The website may be slow or unreachable."
                   url None))
  | ConnectionError =>
      ret (Some (failure_at
                   "Connection error. Please check your internet connection."
                   url None))
  | OtherException msg =>
      ret (Some (failure_at ("Error fetching article: " ++ msg)%string url None))
  | Responded response => handle_response url use_fallbacks response
  end.

(** [len(newspaper_result.get("content", "")) > 100] on a successful result *)
Definition accepted_first (newspaper_result : FetchResult) : bool :=
  fr_success newspaper_result && (100 <? Py.len (content_of newspaper_result)).

(** [None] is the Python [None] of a call that falls off the end of the
    function. *)
Definition fetch_article_content (url : string) (use_fallbacks : bool)
  : M W (option FetchResult) :=
  if use_fallbacks then
    newspaper_result <- fetch_with_newspaper3k url ;;
    if accepted_first newspaper_result then ret (Some newspaper_result)
    else direct_http url use_fallbacks
  else direct_http url use_fallbacks.

(** *** [find_related_articles] *)

(** [list(title_words.union(content_words))[:10]] *)
Definition keywords_of (current_title current_content : string) : list string :=
  let title_words := Py.set_of (Py.findall_words 4 (Py.lower current_title)) in
  let content_words :=
    Py.set_of (Py.findall_words 5 (Py.take 500 (Py.lower current_content))) in
  firstn 10 (Py.list_of_set (set_order env) (Py.union title_words content_words)).

Definition always_relevant : list string :=
  ["india"; "modi"; "putin"; "russia"; "diplomatic"; "visit"; "policy"].

(** the number of elements of [l] that satisfy [p] *)
Definition count (p : string -> bool) (l : list string) : Z :=
  Z.of_nat (length (filter p l)).

(** the score of a feed entry: 1 per keyword found in its text, 2 per
    topic found both in its text and in the current content *)
Definition entry_score (keywords : list string) (current_content entry_text : string)
  : Z :=
  (count (fun keyword => Py.str_in keyword entry_text) keywords
   + 2 * count (fun topic => Py.str_in topic entry_text
                             && Py.str_in topic (Py.lower current_content))
               always_relevant)%Z.

(** [len(related_articles) >= max_articles] *)
Definition full (max_articles : Z) (related_articles : list RelatedCandidate) : bool :=
  (max_articles <=? Z.of_nat (length related_articles))%Z.

(** the loop over [feed.entries[:20]] *)
Fixpoint scan_entries (url current_content : string) (keywords : list string)
         (max_articles : Z) (entries : list Entry)
         (related_articles : list RelatedCandidate) : list RelatedCandidate :=
  match entries with
  | [] => related_articles
  | entry :: entries' =>
      let entry_url := Py.get (e_link entry) "" in
      let entry_title := Py.lower (Py.get (e_title entry) "") in
      let entry_summary_l := Py.lower (entry_summary entry) in
      if String.eqb entry_url url || Py.str_in url entry_url then
        scan_entries url current_content keywords max_articles entries'
                     related_articles
      else
        let entry_text := (entry_title ++ " " ++ entry_summary_l)%string in
        let relevance_score := entry_score keywords current_content entry_text in
        if (2 <=? relevance_score)%Z then
          let related_articles :=
            related_articles ++
              [mkRelatedCandidate entry_url (Py.get (e_title entry) "No title")
                 (entry_summary entry) relevance_score
                 (Some (Py.get (e_published entry) "")) rss_feed] in
          if full max_articles related_articles then related_articles
          else scan_entries url current_content keywords max_articles entries'
                            related_articles
        else scan_entries url current_content keywords max_articles entries'
                          related_articles
  end.

(** the loop over [rss_paths] *)
Fixpoint scan_feeds (base_url url current_content : string)
         (keywords : list string) (max_articles : Z) (paths : list string)
         (related_articles : list RelatedCandidate)
  : M W (list RelatedCandidate) :=
  match paths with
  | [] => ret related_articles
  | path :: paths' =>
      feed <- call (feedparser_parse env (base_url ++ path)%string) ;;
      match feed with
      | None => scan_feeds base_url url current_content keywords max_articles
                           paths' related_articles
      | Some entries =>
          let related_articles :=
            scan_entries url current_content keywords max_articles
                         (firstn 20 entries) related_articles in
          if full max_articles related_articles then ret related_articles
          else scan_feeds base_url url current_content keywords max_articles
                          paths' related_articles
      end
  end.

Definition related_selectors : list string :=
  [("a" ++ attr_has "href" "related")%string;
   ".related-articles a"; ".more-articles a"; ".similar-articles a";
   (attr_has "class" "related" ++ " a")%string;
   (attr_has "class" "similar" ++ " a")%string].

(** how a loop of the in-page search ends: it ran to its end or to a
    [break], or a library call raised *)
Inductive Flow : Type := Completed | Raised.

(** the loop over [links[:10]] *)
Fixpoint scan_links (base_url url : string) (keywords : list string)
         (max_articles : Z) (links : list Anchor)
         (related_articles : list RelatedCandidate)
  : list RelatedCandidate * Flow :=
  match links with
  | [] => (related_articles, Completed)
  | link :: links' =>
      let href := Py.get (a_href link) "" in
      if Py.truthy href then
        match (if negb (Py.startswith href "http") then urljoin env base_url href
               else Some href) with
        | None => (related_articles, Raised)
        | Some href =>
            if negb (String.eqb href url) && Py.str_in base_url href then
              let title := a_text link in
              if Py.truthy title && (10 <? Py.len title) then
                let title_lower := Py.lower title in
                let relevance :=
                  count (fun kw => Py.str_in kw title_lower) keywords in
                if (1 <=? relevance)%Z then
                  let related_articles :=
                    related_articles ++
                      [mkRelatedCandidate href title "" relevance None page_links] in
                  if full max_articles related_articles
                  then (related_articles, Completed)
                  else scan_links base_url url keywords max_articles links'
                                  related_articles
                else scan_links base_url url keywords max_articles links'
                                related_articles
              else scan_links base_url url keywords max_articles links'
                              related_articles
            else scan_links base_url url keywords max_articles links'
                            related_articles
        end
      else scan_links base_url url keywords max_articles links' related_articles
  end.

(** the loop over [related_selectors] *)
Fixpoint scan_selectors (page : Soup) (base_url url : string)
         (keywords : list string) (max_articles : Z) (selectors : list string)
         (related_articles : list RelatedCandidate) : list RelatedCandidate :=
  match selectors with
  | [] => related_articles
  | selector :: selectors' =>
      match scan_links base_url url keywords max_articles
                       (firstn 10 (soup_select page selector)) related_articles with
      | (related_articles, Raised) => related_articles
      | (related_articles, Completed) =>
          if full max_articles related_articles then related_articles
          else scan_selectors page base_url url keywords max_articles selectors'
                              related_articles
      end
  end.

(** the in-page search *)
Definition scan_page (base_url url : string) (keywords : list string)
           (max_articles : Z) (related_articles : list RelatedCandidate)
  : M W (list RelatedCandidate) :=
  response <- call (requests_get env url) ;;
  match response with
  | Some response =>
      if status_code response =? 200 then
        ret (scan_selectors (soup response) base_url url keywords max_articles
                            related_selectors related_articles)
      else ret related_articles
  | None => ret related_articles
  end.

(** [related_articles.sort(key=..., reverse=True)]: stable, descending *)
Fixpoint insert_by_score (x : RelatedCandidate) (l : list RelatedCandidate)
  : list RelatedCandidate :=
  match l with
  | [] => [x]
  | y :: l' =>
      if (rc_relevance_score x <? rc_relevance_score y)%Z
      then y :: insert_by_score x l'
      else x :: l
  end.

Definition sort_by_score (l : list RelatedCandidate) : list RelatedCandidate :=
  fold_right insert_by_score [] l.

Definition find_related_articles (url current_title current_content : string)
           (max_articles : Z) : M W (list RelatedCandidate) :=
  match urlparse_base env url with
  | None => ret []
  | Some base_url =>
      let keywords := keywords_of current_title current_content in
      related_articles <-
        scan_feeds base_url url current_content keywords max_articles rss_paths [] ;;
      related_articles <-
        scan_page base_url url keywords max_articles related_articles ;;
      ret (Py.slice_to max_articles (sort_by_score related_articles))
  end.

(** *** [analyze_related_articles] *)

(** [set(re.findall(r'\b\w{5,}\b', text[:1000]))] *)
Definition topics_of (text : string) : list string :=
  Py.set_of (Py.findall_words 5 (Py.take 1000 text)).

(** [[s.strip() for s in text.split('.') if len(s.strip()) > 50]] *)
Definition sentences_of (text : string) : list string :=
  map Py.strip
      (filter (fun s => 50 <? Py.len (Py.strip s)) (Py.split "." text)).

Definition substantive : list string :=
  ["policy"; "security"; "impact"; "citizen"; "government"; "cost"; "benefit"].

(** the loop over [related_sentences[:20]] *)
Fixpoint scan_sentences (current_sentences related_sentences unique_info : list string)
  : list string :=
  match related_sentences with
  | [] => unique_info
  | rel_sent :: related_sentences' =>
      if negb (existsb (fun curr_sent => Py.str_in (Py.take 50 rel_sent) curr_sent)
                       current_sentences)
         && existsb (fun kw => Py.str_in kw rel_sent) substantive
      then
        let unique_info := unique_info ++ [Py.take 150 rel_sent] in
        if 3 <=? length unique_info then unique_info
        else scan_sentences current_sentences related_sentences' unique_info
      else scan_sentences current_sentences related_sentences' unique_info
  end.

(** the body of the loop over [related_articles] *)
Definition analyze_one (current_content : string) (article : RelatedCandidate)
  : M W ArticleAnalysis :=
  let article_summary := Py.lower (rc_summary article) in
  let current_topics := topics_of current_content in
  let article_topics := topics_of article_summary in
  let common := Py.intersection current_topics article_topics in
  let unique_to_current := Py.difference current_topics article_topics in
  let unique_to_related := Py.difference article_topics current_topics in
  let enum s := firstn 5 (Py.list_of_set (set_order env) s) in
  let summary :=
    if Py.truthy (rc_summary article) then Py.take 200 (rc_summary article)
    else "" in
  fetched <- fetch_article_content (rc_url article) false ;;
  match fetched with
  | Some fetched =>
      if fr_success fetched then
        let related_content := Py.lower (content_of fetched) in
        let unique_info :=
          scan_sentences (sentences_of current_content)
                         (firstn 20 (sentences_of related_content)) [] in
        ret (mkArticleAnalysis (rc_url article) (rc_title article)
               (rc_relevance_score article) summary
               (mkComparison (enum common) (enum unique_to_related)
                             (enum unique_to_current) (Some unique_info))
               true (Some (Py.len (content_of fetched))))
      else
        ret (mkArticleAnalysis (rc_url article) (rc_title article)
               (rc_relevance_score article) summary
               (mkComparison (enum common) (enum unique_to_related)
                             (enum unique_to_current) None)
               false None)
  | None => (* [fetched.get] raises on [None]: the [except] branch *)
      ret (mkArticleAnalysis (rc_url article) (rc_title article)
             (rc_relevance_score article) summary
             (mkComparison (enum common) (enum unique_to_related)
                           (enum unique_to_current) None)
             false None)
  end.

Fixpoint analyze_each (current_content : string)
         (related_articles : list RelatedCandidate)
  : M W (list ArticleAnalysis) :=
  match related_articles with
  | [] => ret []
  | article :: related_articles' =>
      article_analysis <- analyze_one current_content article ;;
      rest <- analyze_each current_content related_articles' ;;
      ret (article_analysis :: rest)
  end.

Definition analyze_related_articles (current_article : FetchResult)
           (related_articles : list RelatedCandidate) : M W RelatedAnalysis :=
  match related_articles with
  | [] =>
      ret (mkRelatedAnalysis false
             (Some "No related articles found on the same website") None None)
  | _ :: _ =>
      let current_content := Py.lower (content_of current_article) in
      analyses <- analyze_each current_content related_articles ;;
      ret (mkRelatedAnalysis true None (Some (length related_articles))
             (Some analyses))
  end.

End Engine.

Arguments fetch_with_newspaper3k {W} env url _.
Arguments try_rss_paths {W} env base_url url paths _.
Arguments try_rss_feed {W} env url _.
Arguments fallback_methods {W} env.
Arguments try_fallbacks {W} accept methods url _.
Arguments extract {W} env url use_fallbacks page _.
Arguments blocked {W} env url use_fallbacks msg suggestion _.
Arguments handle_response {W} env url use_fallbacks response _.
Arguments direct_http {W} env url use_fallbacks _.
Arguments fetch_article_content {W} env url use_fallbacks _.
Arguments keywords_of {W} env current_title current_content.
Arguments scan_feeds {W} env base_url url current_content keywords max_articles paths related_articles _.
Arguments scan_links {W} env base_url url keywords max_articles links related_articles.
Arguments scan_selectors {W} env page base_url url keywords max_articles selectors related_articles.
Arguments scan_page {W} env base_url url keywords max_articles related_articles _.
Arguments find_related_articles {W} env url current_title current_content max_articles _.
Arguments analyze_one {W} env current_content article _.
Arguments analyze_each {W} env current_content related_articles _.
Arguments analyze_related_articles {W} env current_article related_articles _.

(** ** The post-processing as the specification words it

    Split into lines, drop the lines of at most [threshold] characters,
    drop the navigation-like lines (all capitals, shorter than 30
    characters), keep at most 200 lines. *)

Definition navigation_like (line : string) : bool :=
  Py.isupper line && (Py.len line <? 30).

Definition postprocess_spec (threshold : nat) (article_content : string)
  : list string :=
  firstn 200
    (filter (fun line => (threshold <? Py.len line) && negb (navigation_like line))
            (map Py.strip (Py.split Py.newline article_content))).

(** ** What the two sources of [find_related_articles] let through

    A candidate of the feed source is not the article itself, does not
    contain its address and scores at least 2; a candidate of the in-page
    source is not the article itself and scores at least 1. *)

Definition accepted_candidate (url : string) (c : RelatedCandidate) : Prop :=
  rc_url c <> url
  /\ match rc_source c with
     | rss_feed => (2 <= rc_relevance_score c)%Z /\ Py.str_in url (rc_url c) = false
     | page_links => (1 <= rc_relevance_score c)%Z
     end.

(** ** What the comparator promises about one entry *)

(** the bounds on the lists of a comparison *)
Definition within_bounds (a : ArticleAnalysis) : Prop :=
  length (common_topics (aa_comparison a)) <= 5
  /\ length (topics_in_related_not_in_current (aa_comparison a)) <= 5
  /\ length (topics_in_current_not_in_related (aa_comparison a)) <= 5
  /\ match information_in_related_not_in_current (aa_comparison a) with
     | Some unique_info => length unique_info <= 3
     | None => True
     end.

(** the fields of a candidate that its entry carries over *)
Definition carries_over (c : RelatedCandidate) (a : ArticleAnalysis) : Prop :=
  aa_url a = rc_url c
  /\ aa_title a = rc_title c
  /\ aa_relevance_score a = rc_relevance_score c
  /\ aa_summary a = Py.take 200 (rc_summary c)
  /\ Py.len (aa_summary a) <= 200.

(** ** Concrete pages, feeds and environments *)

Module Fixtures.

Definition site : string := "https://news.example".
Definition url : string := "https://news.example/world/moscow-summit".

Definition no_page : Soup :=
  mkSoup (fun _ _ => None) (fun _ => Some None) [] [] None (fun _ => []).

Definition text_element (text : string) : Element :=
  mkElement None text text text.

(** a page whose [article] element holds [text] *)
Definition article_page (text : string) : Soup :=
  mkSoup (fun _ _ => None)
         (fun selector => if String.eqb selector "article"
                          then Some (Some (text_element text)) else Some None)
         [] [] None (fun _ => []).

(** a page with nothing but a body *)
Definition body_page (text : string) : Soup :=
  mkSoup (fun _ _ => None) (fun _ => Some None) [] []
         (Some (text_element text)) (fun _ => []).

(** a page with one link in its related-articles block *)
Definition links_page (link : Anchor) : Soup :=
  mkSoup (fun _ _ => None) (fun _ => Some None) [] [] None
         (fun selector => if String.eqb selector ".related-articles a"
                          then [link] else []).

Definition forbidden : HttpOutcome :=
  Responded (mkHttpResponse 403 "403 Client Error: Forbidden" no_page).

Definition ok (page : Soup) : HttpOutcome :=
  Responded (mkHttpResponse 200 "" page).

(** a world without state: every library call answers the same way *)
Definition make_env (available : bool) (article : option Article)
           (feed : option (list Entry)) (outcome : HttpOutcome)
           (page : option HttpResponse) : Env unit :=
  mkEnv unit available
        (fun _ w => (article, w))
        (fun _ w => (feed, w))
        (fun _ w => (outcome, w))
        (fun _ w => (page, w))
        (fun _ => Some site)
        (fun base href => Some (base ++ href)%string)
        Py.insertion_order.

Definition start : State unit := mkState tt [].

(** 60 characters *)
Definition short_text : string :=
  "Leaders met in Moscow on Monday to discuss trade and energy.".

(** 160 characters *)
Definition long_text : string :=
  "Leaders met in Moscow on Monday to discuss trade and energy. The government said the new policy would cut the cost of imports and benefit every citizen by 2030.".

(** the library extracts a short text; the site answers 403 *)
Definition env_short_library : Env unit :=
  make_env true (Some (mkArticle "Moscow summit" short_text)) (Some [])
           forbidden None.

(** the library extracts a long text *)
Definition env_long_library : Env unit :=
  make_env true (Some (mkArticle "Moscow summit" long_text)) (Some [])
           forbidden None.

(** the library is missing, the site answers 403, and the feed lists the
    article with an empty summary *)
Definition bare_entry : Entry :=
  mkEntry (Some url) (Some "Moscow summit") (Some "") None None.

Definition env_blocked_feed : Env unit :=
  make_env false None (Some [bare_entry]) forbidden None.

(** the library is missing, the site answers 403, no feed *)
Definition env_blocked : Env unit :=
  make_env false None None forbidden None.

(** a page of menu entries: 64 characters, no line longer than 10 *)
Definition menu_text : string :=
  "Home page
World news
Sport news
Business
Culture
Weather
Contact".

Definition env_menu : Env unit :=
  make_env false None None (ok (body_page menu_text)) None.

(** an article with a seven-letter line *)
Definition byline_text : string :=
  "By Asha
MOSCOW SUMMIT
Leaders met in Moscow on Monday to discuss trade and energy. The government said the new policy would cut the cost of imports and benefit every citizen by 2030.".

Definition env_byline : Env unit :=
  make_env false None None (ok (article_page byline_text)) None.

Definition env_article : Env unit :=
  make_env false None None (ok (article_page long_text)) None.

(** the page of the article links to another one, whose anchor text shares
    one keyword with the title *)
Definition other_link : Anchor :=
  mkAnchor (Some "/world/kremlin-statement") "Statement after the summit".

Definition env_one_keyword : Env unit :=
  make_env false None None Timeout
           (Some (mkHttpResponse 200 "" (links_page other_link))).

(** the page of the article links to itself with a tracking parameter *)
Definition tracking_link : Anchor :=
  mkAnchor (Some "https://news.example/world/moscow-summit?utm_source=related")
           "Moscow summit: the full story".

Definition env_tracking : Env unit :=
  make_env false None None Timeout
           (Some (mkHttpResponse 200 "" (links_page tracking_link))).

Definition current : FetchResult :=
  mkFetchResult true (Some "Moscow summit") (Some long_text) (Some url)
                (Some "requests") None None None (Some 161) None.

Definition candidate : RelatedCandidate :=
  mkRelatedCandidate "https://news.example/world/kremlin-statement"
                     "Statement after the summit"
                     "The Kremlin issued a statement on energy policy after the Moscow talks."
                     3 (Some "") rss_feed.

End Fixtures.

From Stdlib Require Import Sorted.

(** ** [refine_category_based_on_scores]

    The analysis is the dictionary parsed from the answer of the language
    model.  Of its keys the function reads the scores of the sections (an
    integer each, 0 when the section or its score is missing) and the three
    category keys, which it then sets; the other keys are left alone and are
    not modelled.  (An analysis that is not a dictionary is returned as it
    is; the record is the dictionary case.) *)

Record Analysis : Type := mkAnalysis {
  factual_accuracy : option Z;
  source_credibility : option Z;
  bias_level : option Z;
  propaganda_indicators : option Z;
  india_relevance : option Z;
  overall_score : option Z;
  category : option string;
  category_keywords : option (list string);
  category_reasoning : option string
}.

Module Refine.

Definition upper_char (c : ascii) : ascii :=
  if Py.is_lower_char c then ascii_of_nat (nat_of_ascii c - 32) else c.

Definition is_cased (c : ascii) : bool := Py.is_upper_char c || Py.is_lower_char c.

(** [s.title()]: a letter that follows a letter is lowered, any other
    letter is raised *)
Fixpoint title_from (previous_is_cased : bool) (s : string) : string :=
  match s with
  | EmptyString => EmptyString
  | String c s' =>
      String (if previous_is_cased then Py.lower_char c else upper_char c)
             (title_from (is_cased c) s')
  end.

Definition title (s : string) : string := title_from false s.

(** [', '.join(ls)] *)
Definition join_comma (ls : list string) : string := String.concat ", " ls.

Definition important_terms : list string :=
  ["modi"; "putin"; "russia"; "diplomatic"; "security"; "policy"; "economic";
   "government"; "citizen"; "india"; "visit"; "meeting"; "agreement"; "deal"].

(** the important terms found in the title or in the first 500 characters
    of the content, in title case *)
Definition key_terms (article_data : FetchResult) : list string :=
  let article_title := Py.lower (Py.get (fr_title article_data) "") in
  let article_content := Py.lower (content_of article_data) in
  map title
      (filter (fun term => Py.str_in term article_title
                           || Py.str_in term (Py.take 500 article_content))
              important_terms).

(** [f"{before}{category_keywords[0] if category_keywords else fallback}{after}"
     if category_keywords else bare] *)
Definition label (category_keywords : list string) (before after bare : string)
  : string :=
  match category_keywords with
  | first :: _ => (before ++ first ++ after)%string
  | [] => bare
  end.

(** the chain of tests on the scores; [category] is the category so far *)
Definition refined_category (fa_score sc_score bl_score pi_score overall : Z)
           (category_keywords : list string) (category : string) : string :=
  if (fa_score <? 15)%Z && (sc_score <? 10)%Z then
    if (pi_score <? 8)%Z || (bl_score <? 8)%Z then
      if (overall <? 45)%Z
      then label category_keywords "Propaganda - " " Content" "PROPAGANDA"
      else label category_keywords "Misinformation - " " Claims" "MISINFORMATION"
    else label category_keywords "Incomplete Reporting - Missing " " Information"
               "MISINFORMATION"
  else if (20 <=? fa_score)%Z && (15 <=? sc_score)%Z then
    if (12 <=? pi_score)%Z && (10 <=? bl_score)%Z
    then label category_keywords "Factual News - " " Reporting" "FACTUAL NEWS"
    else label category_keywords "Factual but " " - Needs Balance" "FACTUAL NEWS"
  else if (60 <=? overall)%Z && (15 <=? fa_score)%Z then
    label category_keywords "Likely Factual - " " with Gaps" "FACTUAL NEWS"
  else if (overall <? 60)%Z && (45 <=? overall)%Z then
    label category_keywords "Questionable - " " Information" "MISINFORMATION"
  else if (overall <? 45)%Z then
    if (pi_score <? 8)%Z
    then label category_keywords "Propaganda - " " Content" "PROPAGANDA"
    else label category_keywords "Severe Misinformation - " " Claims" "MISINFORMATION"
  else category.

(** the reasons listed when the analysis gives no reasoning *)
Definition reasons (fa_score sc_score bl_score pi_score : Z) : list string :=
  (if (fa_score <? 15)%Z then ["low factual accuracy"] else [])
  ++ (if (sc_score <? 10)%Z then ["poor source credibility"] else [])
  ++ (if (pi_score <? 8)%Z then ["propaganda indicators"] else [])
  ++ (if (bl_score <? 8)%Z then ["high bias"] else []).

Definition default_reasoning (fa_score sc_score bl_score pi_score : Z) : string :=
  ("Category determined by: "
   ++ match reasons fa_score sc_score bl_score pi_score with
      | [] => "overall assessment"
      | found => join_comma found
      end)%string.

Definition refine_category_based_on_scores (analysis : Analysis)
           (article_data : FetchResult) : Analysis :=
  let fa_score := Py.get (factual_accuracy analysis) 0%Z in
  let sc_score := Py.get (source_credibility analysis) 0%Z in
  let bl_score := Py.get (bias_level analysis) 0%Z in
  let pi_score := Py.get (propaganda_indicators analysis) 0%Z in
  let overall := Py.get (overall_score analysis) 0%Z in
  let keywords :=
    Py.get (category_keywords analysis) (firstn 3 (key_terms article_data)) in
  let reasoning := Py.get (category_reasoning analysis) "" in
  mkAnalysis
    (factual_accuracy analysis) (source_credibility analysis)
    (bias_level analysis) (propaganda_indicators analysis)
    (india_relevance analysis) (overall_score analysis)
    (Some (refined_category fa_score sc_score bl_score pi_score overall keywords
                            (Py.get (category analysis) "UNKNOWN")))
    (Some keywords)
    (Some (if Py.truthy reasoning then reasoning
           else default_reasoning fa_score sc_score bl_score pi_score)).

(** the labels the chain of tests can give: the text before and after the
    first keyword, and the bare label used without keywords *)
Definition labels : list (string * string * string) :=
  [("Propaganda - ", " Content", "PROPAGANDA");
   ("Misinformation - ", " Claims", "MISINFORMATION");
   ("Incomplete Reporting - Missing ", " Information", "MISINFORMATION");
   ("Factual News - ", " Reporting", "FACTUAL NEWS");
   ("Factual but ", " - Needs Balance", "FACTUAL NEWS");
   ("Likely Factual - ", " with Gaps", "FACTUAL NEWS");
   ("Questionable - ", " Information", "MISINFORMATION");
   ("Severe Misinformation - ", " Claims", "MISINFORMATION")].

(** the scores with which no test of the chain fires *)
Definition untouched (fa_score sc_score overall : Z) : Prop :=
  (60 <= overall)%Z /\ (fa_score < 15)%Z /\ (10 <= sc_score)%Z.

End Refine.

(** ** [fetch_with_selenium] and [fetch_with_playwright]

    The two browsers are oracles as well: the outcome of driving the
    browser to the page is either the text of the exception raised, or the
    title the browser reports and the parsed page source. *)

Record Browsers (W : Type) : Type := mkBrowsers {
  SELENIUM_AVAILABLE : bool;
  PLAYWRIGHT_AVAILABLE : bool;
  (* webdriver.Chrome, driver.get, the consent banners, driver.title, driver.page_source *)
  selenium_page : string -> W -> (string + string * Soup) * W;
  (* sync_playwright, page.goto, page.title(), page.content() *)
  playwright_page : string -> W -> (string + string * Soup) * W;
  (* str(e) of an exception raised by soup.select_one *)
  selector_error : string
}.

Arguments SELENIUM_AVAILABLE {W} _.
Arguments PLAYWRIGHT_AVAILABLE {W} _.
Arguments selenium_page {W} _ _ _.
Arguments playwright_page {W} _ _ _.
Arguments selector_error {W} _.

Section Browser.

Variable W : Type.
Variable browsers : Browsers W.

Local Open Scope engine_scope.

Definition browser_selectors : list string :=
  ["article"; attr_is "role" "article"; ".article-content"; ".article-body"; "main"].

(** the loop over the selectors, which has no handler of its own: [None]
    when [select_one] raises *)
Fixpoint browser_select (page : Soup) (selectors : list string)
         (article_content : option string) : option (option string) :=
  match selectors with
  | [] => Some article_content
  | selector :: selectors' =>
      match soup_select_one page selector with
      | None => None
      | Some None => browser_select page selectors' article_content
      | Some (Some article) =>
          let text := el_text_lines article in
          if 200 <? Py.len text then Some (Some text)
          else browser_select page selectors' (Some text)
      end
  end.

(** [if not article_content:] the paragraphs that are not empty *)
Definition browser_paragraphs (page : Soup) (article_content : option string)
  : option string :=
  if match article_content with
     | Some text => Py.truthy text
     | None => false
     end
  then article_content
  else match soup_find_all_p page with
       | [] => article_content
       | paragraphs =>
           Some (Py.join_nl (filter Py.truthy (map el_text_strip paragraphs)))
       end.

(** the content both browsers extract from the page source; [None] when
    the extraction raises *)
Definition browser_content (page : Soup) : option (option string) :=
  match browser_select page browser_selectors None with
  | Some article_content => Some (browser_paragraphs page article_content)
  | None => None
  end.

(** [article_content and len(article_content) > n] *)
Definition longer_than (article_content : option string) (n : nat) : bool :=
  match article_content with
  | Some text => Py.truthy text && (n <? Py.len text)
  | None => false
  end.

(** the end of both functions: the result for what was extracted, the
    content being cut at 5000 characters *)
Definition browser_result (name title_text url : string)
           (extracted : option (option string)) : FetchResult :=
  match extracted with
  | None => failure (name ++ " error: " ++ selector_error browsers)%string
  | Some article_content =>
      if longer_than article_content 100
      then mkFetchResult true (Some title_text)
                         (Some (Py.take 5000 (Py.get article_content "")))
                         (Some url) (Some name) None None None None None
      else failure (name ++ " failed to extract content")%string
  end.

Definition fetch_with_selenium (url : string) : M W FetchResult :=
  log Selenium url ;;;
  if negb (SELENIUM_AVAILABLE browsers) then ret (failure "selenium not installed")
  else
    outcome <- call (selenium_page browsers url) ;;
    match outcome with
    | inl msg => ret (failure ("selenium error: " ++ msg)%string)
    | inr (driver_title, page) =>
        let title_text :=
          if Py.truthy driver_title then driver_title
          else match soup_find page "title" None with
               | Some title => Py.strip (el_text title)
               | None => "No title found"
               end in
        ret (browser_result "selenium" title_text url (browser_content page))
    end.

Definition fetch_with_playwright (url : string) : M W FetchResult :=
  log Playwright url ;;;
  if negb (PLAYWRIGHT_AVAILABLE browsers) then ret (failure "playwright not installed")
  else
    outcome <- call (playwright_page browsers url) ;;
    match outcome with
    | inl msg => ret (failure ("playwright error: " ++ msg)%string)
    | inr (title, page) =>
        ret (browser_result "playwright" (Py.or_else title "No title found") url
                            (browser_content page))
    end.

End Browser.

Arguments fetch_with_selenium {W} browsers url _.
Arguments fetch_with_playwright {W} browsers url _.
Arguments browser_result {W} browsers name title_text url extracted.

(** ** The code fence around the answer of the language model

    The block of [analyze_news] that takes the JSON text out of a markdown
    code fence before it is parsed. *)

Module Fence.

(** [s[n:]] for [n >= 0] *)
Fixpoint drop (n : nat) (s : string) : string :=
  match n, s with
  | S n', String _ s' => drop n' s'
  | _, _ => s
  end.

(** the index of the first occurrence of [needle] in [s] *)
Fixpoint first_index (needle s : string) : option nat :=
  if String.prefix needle s then Some 0
  else match s with
       | EmptyString => None
       | String _ s' => option_map S (first_index needle s')
       end.

(** [s.find(needle, start)] for [start >= 0]: an index from [start] on,
    or -1 *)
Definition find (needle : string) (start : nat) (s : string) : Z :=
  match first_index needle (drop start s) with
  | Some i => Z.of_nat (start + i)
  | None => (-1)%Z
  end.

(** [s[start:stop]] for [start >= 0] and any integer [stop]: a negative
    [stop] counts from the end *)
Definition slice (start : Z) (stop : Z) (s : string) : string :=
  let first := Z.to_nat start in
  let last :=
    if (0 <=? stop)%Z then Z.to_nat stop else Py.len s - Z.to_nat (- stop) in
  Py.take (last - first) (drop first s).

Definition fence : string := "```".
Definition json_fence : string := "```json".

(** the text handed to [json.loads] *)
Definition unfenced (analysis_text : string) : string :=
  if Py.str_in json_fence analysis_text then
    let json_start := (find json_fence 0 analysis_text + 7)%Z in
    let json_end := find fence (Z.to_nat json_start) analysis_text in
    Py.strip (slice json_start json_end analysis_text)
  else if Py.str_in fence analysis_text then
    let json_start := (find fence 0 analysis_text + 3)%Z in
    let json_end := find fence (Z.to_nat json_start) analysis_text in
    Py.strip (slice json_start json_end analysis_text)
  else analysis_text.

(** a text without a backquote *)
Definition plain (s : string) : Prop :=
  Py.existsb_char (Ascii.eqb "`") s = false.

End Fence.

(** ** Further notions used by the properties *)

(** The state in which [fetch_article_content] makes its direct request:
    the state of the call itself without fallbacks; with fallbacks, the
    state the first call of the article-extraction library leaves, unless
    its result was accepted (then no request is made). *)
Definition before_direct {W : Type} (env : Env W) (url : string)
           (use_fallbacks : bool) (st : State W) : option (State W) :=
  if use_fallbacks then
    if accepted_first (fst (fetch_with_newspaper3k env url st)) then None
    else Some (snd (fetch_with_newspaper3k env url st))
  else Some st.

(** the state once the direct request is logged and answered *)
Definition after_direct {W : Type} (url : string) (st : State W) (w : W) : State W :=
  mkState w (trace st ++ [(DirectHttp, url)]).

(** The shape of the dictionaries that [fetch_article_content] returns for
    [url]: the address is always there; a success has a title, a content
    and a method and no error; a failure has an error and no content; a
    recorded content length is the length of the content. *)
Definition well_formed (url : string) (r : FetchResult) : Prop :=
  fr_url r = Some url
  /\ (if fr_success r
      then fr_title r <> None /\ fr_content r <> None /\ fr_method r <> None
           /\ fr_error r = None
      else fr_error r <> None /\ fr_content r = None /\ fr_title r = None)
  /\ match fr_content_length r with
     | Some n => n = Py.len (content_of r)
     | None => True
     end.

(** What else the two sources of [find_related_articles] guarantee about a
    candidate, for the site [base_url] of the article: a feed candidate has
    a publication date (possibly empty); an in-page candidate has an
    address that contains [base_url], a title of more than 10 characters,
    an empty summary and no publication date. *)
Definition placed (base_url : string) (c : RelatedCandidate) : Prop :=
  match rc_source c with
  | rss_feed => rc_published c <> None
  | page_links =>
      Py.str_in base_url (rc_url c) = true /\ 10 < Py.len (rc_title c)
      /\ rc_summary c = "" /\ rc_published c = None
  end.

(** a list of candidates in descending order of relevance score *)
Definition by_descending_score (l : list RelatedCandidate) : Prop :=
  Sorted (fun a b => (rc_relevance_score b <= rc_relevance_score a)%Z) l.

(** An entry of the comparator is consistent: the sentence comparison and
    the content length are there exactly when the full content was
    fetched. *)
Definition consistent (a : ArticleAnalysis) : Prop :=
  if aa_full_content_available a
  then (exists unique_info n,
           information_in_related_not_in_current (aa_comparison a) = Some unique_info
           /\ aa_content_length a = Some n)
  else information_in_related_not_in_current (aa_comparison a) = None
       /\ aa_content_length a = None.

(** The topic lists of an entry, against the topic sets they come from:
    [current] for the current article and [related] for the summary of the
    candidate. *)
Definition topical (current related : list string) (a : ArticleAnalysis) : Prop :=
  Forall (fun t => In t current /\ In t related) (common_topics (aa_comparison a))
  /\ Forall (fun t => In t related /\ ~ In t current)
            (topics_in_related_not_in_current (aa_comparison a))
  /\ Forall (fun t => In t current /\ ~ In t related)
            (topics_in_current_not_in_related (aa_comparison a))
  /\ NoDup (common_topics (aa_comparison a))
  /\ NoDup (topics_in_related_not_in_current (aa_comparison a))
  /\ NoDup (topics_in_current_not_in_related (aa_comparison a)).

(** a sentence reported as unique: 51 to 150 characters, without a period *)
Definition reported_sentence (s : string) : Prop :=
  50 < Py.len s <= 150
  /\ Py.existsb_char (Ascii.eqb ".") s = false.

(** ** More pages and environments *)

Module Cases.

Import Fixtures.

Definition answered (status : nat) (text : string) : HttpOutcome :=
  Responded (mkHttpResponse status text no_page).

Definition env_answering (outcome : HttpOutcome) : Env unit :=
  make_env false None None outcome None.

(** a page whose first matching content selector is [.story-body] *)
Definition story_page (teaser text : string) : Soup :=
  mkSoup (fun _ _ => None)
         (fun selector =>
            if String.eqb selector "article" then Some (Some (text_element teaser))
            else if String.eqb selector ".story-body" then Some (Some (text_element text))
            else Some None)
         [] [] None (fun _ => []).

(** a page of paragraphs *)
Definition paragraphs_page (texts : list string) : Soup :=
  mkSoup (fun _ _ => None) (fun _ => Some None) (map text_element texts) [] None
         (fun _ => []).

(** a page with an og:title meta tag and a heading *)
Definition titled_page (og heading : string) : Soup :=
  mkSoup (fun tag attrs =>
            match attrs with
            | Some (name, value) =>
                if String.eqb tag "meta" && String.eqb name "property"
                   && String.eqb value "og:title"
                then Some (mkElement (Some og) "" "" "") else None
            | None =>
                if String.eqb tag "h1" then Some (text_element heading) else None
            end)
         (fun _ => Some None) [] [] None (fun _ => []).

(** a page whose only title element is a blank heading *)
Definition blank_heading_page : Soup :=
  mkSoup (fun tag attrs =>
            match attrs with
            | Some _ => None
            | None => if String.eqb tag "h1" then Some (text_element "   ") else None
            end)
         (fun _ => Some None) [] [] None (fun _ => []).

(** a feed whose first entry has no link *)
Definition linkless_entry : Entry :=
  mkEntry None (Some "Weather warning") (Some "Storms are expected on Friday.") None None.

Definition env_linkless_feed : Env unit :=
  make_env false None (Some [linkless_entry]) forbidden None.

(** a site whose feed has two related entries and whose article page links
    to a third article *)
Definition summit_entry (slug title summary : string) : Entry :=
  mkEntry (Some ("https://news.example/world/" ++ slug)%string) (Some title)
          (Some summary) None (Some "Mon, 01 Jan 2024").

Definition env_site : Env unit :=
  mkEnv unit false
        (fun _ w => (None, w))
        (fun feed_url w =>
           (if String.eqb feed_url "https://news.example/feed"
            then Some [summit_entry "kremlin" "Kremlin statement"
                                    "After the summit in moscow";
                       summit_entry "markets" "Markets react to the Moscow summit"
                                    "Russia and india sign a trade policy"]
            else None, w))
        (fun _ w => (Timeout, w))
        (fun _ w => (Some (mkHttpResponse 200 "" (links_page other_link)), w))
        (fun _ => Some site)
        (fun base href => Some (base ++ href)%string)
        Py.insertion_order.

(** a related article with a sentence of its own *)
Definition report_text : string :=
  "The government announced a new security policy for the border regions on Tuesday, officials said. Critics asked what the plan would cost.".

Definition env_report : Env unit :=
  make_env false None None (ok (article_page report_text)) None.

(** a browser that renders the page of the article *)
Definition rendering (title : string) (page : Soup) : Browsers unit :=
  mkBrowsers unit true true
             (fun _ w => (inr (title, page), w))
             (fun _ w => (inr (title, page), w))
             "".

End Cases.

(** ** Properties *)

(** *** Text and list facts *)

Example strip_ex : Py.strip "  ab c
 " = "ab c".
Proof. reflexivity. Qed.

Example split_ex : Py.split "." "a.b." = ["a"; "b"; ""].
Proof. reflexivity. Qed.

Example findall_ex :
  Py.findall_words 4 "modi visits moscow_x for trade-talks" =
  ["modi"; "visits"; "moscow_x"; "trade"; "talks"].
Proof. reflexivity. Qed.

Example isupper_ex :
  Py.isupper "HOME 12" = true /\ Py.isupper "Home" = false /\ Py.isupper "12" = false.
Proof. repeat split. Qed.

Example str_in_ex :
  Py.str_in "403" "403 Forbidden: Access denied." = true /\ Py.str_in "" "x" = true
  /\ Py.str_in "abc" "ab" = false.
Proof. repeat split. Qed.

Example slice_ex :
  Py.slice_to 2 [1; 2; 3] = [1; 2] /\ Py.slice_to (-1) [1; 2; 3] = [1; 2]
  /\ Py.slice_to (-5) [1; 2; 3] = [].
Proof. repeat split. Qed.

Example str_of_nat_ex : Py.str_of_nat 403 = "403" /\ Py.str_of_nat 0 = "0".
Proof. split; reflexivity. Qed.

Lemma len_take (n : nat) (s : string) : Py.len (Py.take n s) <= n.
Proof.
  unfold Py.len; revert s.
  induction n as [|n IH]; intros [|c s]; simpl; try lia.
  specialize (IH s); lia.
Qed.

Lemma Forall_firstn_keep {A : Type} (P : A -> Prop) (n : nat) (l : list A) :
  Forall P l -> Forall P (firstn n l).
Proof.
  intros H; revert n; induction H; intros [|n]; simpl; auto.
Qed.

Lemma Forall_slice_to {A : Type} (P : A -> Prop) (k : Z) (l : list A) :
  Forall P l -> Forall P (Py.slice_to k l).
Proof.
  intros H; unfold Py.slice_to.
  destruct (0 <=? k)%Z; apply Forall_firstn_keep; exact H.
Qed.

(** *** The trace of the strategies *)

Section Traces.

Variable W : Type.
Variable env : Env W.

Lemma newspaper_trace (url : string) (st : State W) :
  trace (snd (fetch_with_newspaper3k env url st)) = trace st ++ [(Newspaper3k, url)].
Proof.
  unfold fetch_with_newspaper3k, bind, log, call, ret; simpl.
  destruct (NEWSPAPER_AVAILABLE env); simpl; [|reflexivity].
  destruct (article_download_parse env url (world st)) as [[article|] w]; simpl;
    [|reflexivity].
  destruct (Py.truthy (article_text article)
            && (50 <? Py.len (Py.strip (article_text article)))); reflexivity.
Qed.

Lemma rss_paths_trace (base_url url : string) (paths : list string) (st : State W) :
  trace (snd (try_rss_paths env base_url url paths st)) = trace st.
Proof.
  revert st; induction paths as [|path paths IH]; intros st; [reflexivity|].
  cbn [try_rss_paths]. unfold bind, call.
  destruct (feedparser_parse env (base_url ++ path)%string (world st))
    as [[entries|] w].
  - destruct (find (entry_matches url) (firstn 10 entries));
      [reflexivity | rewrite IH; reflexivity].
  - rewrite IH; reflexivity.
Qed.

Lemma rss_trace (url : string) (st : State W) :
  trace (snd (try_rss_feed env url st)) = trace st ++ [(RssFeed, url)].
Proof.
  unfold try_rss_feed, bind, log; cbv beta iota.
  destruct (urlparse_base env url); [|reflexivity].
  rewrite rss_paths_trace; reflexivity.
Qed.

(** the loop over the two fallback methods, unrolled *)
Lemma try_fallbacks_unroll (accept : FetchResult -> bool) (url : string)
      (st : State W) :
  try_fallbacks accept (fallback_methods env) url st =
  let (r1, st1) := fetch_with_newspaper3k env url st in
  if accept r1 then (Some r1, st1)
  else let (r2, st2) := try_rss_feed env url st1 in
       if accept r2 then (Some r2, st2) else (None, st2).
Proof.
  unfold fallback_methods; simpl; unfold bind, ret.
  destruct (fetch_with_newspaper3k env url st) as [r1 st1].
  destruct (accept r1); [reflexivity|].
  destruct (try_rss_feed env url st1) as [r2 st2].
  destruct (accept r2); reflexivity.
Qed.

(** without fallbacks, nothing runs once the response is there *)
Lemma extract_alone (url : string) (page : Soup) (st : State W) :
  snd (extract env url false page st) = st.
Proof.
  unfold extract, bind, ret.
  destruct (lacking (extract_content page) 80).
  - destruct (at_least (extract_content page) 50); reflexivity.
  - destruct (80 <=? Py.len (clean_content (Py.get (extract_content page) "")));
      [reflexivity|].
    destruct (Py.truthy (clean_content (Py.get (extract_content page) ""))
              && (50 <=? Py.len (clean_content (Py.get (extract_content page) ""))));
      reflexivity.
Qed.

Lemma handle_response_alone (url : string) (response : HttpResponse) (st : State W) :
  snd (handle_response env url false response st) = st.
Proof.
  unfold handle_response.
  destruct (status_code response =? 401); [reflexivity|].
  destruct (status_code response =? 403); [reflexivity|].
  destruct (status_code response =? 404); [reflexivity|].
  destruct (raises_for_status (status_code response)); [reflexivity|].
  apply extract_alone.
Qed.

Lemma direct_http_alone (url : string) (st : State W) :
  snd (direct_http env url false st)
  = mkState (snd (session_get env url (world st))) (trace st ++ [(DirectHttp, url)]).
Proof.
  unfold direct_http, bind, log, call; simpl.
  destruct (session_get env url (world st)) as [[| |msg|response] w]; simpl;
    try reflexivity.
  apply handle_response_alone.
Qed.

(** the 401 and 403 branches with fallbacks *)
Lemma blocked_unroll (url msg suggestion : string) (st : State W) :
  blocked env url true msg suggestion st =
  let (r1, st1) := fetch_with_newspaper3k env url st in
  if fr_success r1 then (Some r1, st1)
  else let (r2, st2) := try_rss_feed env url st1 in
       if fr_success r2 then (Some r2, st2)
       else (Some (failure_at msg url (Some suggestion)), st2).
Proof.
  unfold blocked, bind. rewrite try_fallbacks_unroll.
  destruct (fetch_with_newspaper3k env url st) as [r1 st1].
  destruct (fr_success r1); [reflexivity|].
  destruct (try_rss_feed env url st1) as [r2 st2].
  destruct (fr_success r2); reflexivity.
Qed.

Lemma extends_ret {A : Type} (a : A) : extends_trace (W := W) (ret a).
Proof. intros st; exists []; simpl; rewrite app_nil_r; reflexivity. Qed.

Lemma extends_bind {A B : Type} (m : M W A) (k : A -> M W B) :
  extends_trace m -> (forall a, extends_trace (k a)) -> extends_trace (bind m k).
Proof.
  intros Hm Hk st. unfold bind.
  destruct (Hm st) as [more1 H1]. destruct (m st) as [a st1]; simpl in H1.
  destruct (Hk a st1) as [more2 H2].
  exists (more1 ++ more2). rewrite H2, H1, app_assoc; reflexivity.
Qed.

Lemma extends_log (s : Strategy) (url : string) : extends_trace (W := W) (log s url).
Proof. intros st; exists [(s, url)]; reflexivity. Qed.

Lemma extends_call {A : Type} (oracle : W -> A * W) : extends_trace (call oracle).
Proof.
  intros st; exists []; unfold call.
  destruct (oracle (world st)); simpl; rewrite app_nil_r; reflexivity.
Qed.

Lemma extends_newspaper (url : string) :
  extends_trace (fetch_with_newspaper3k env url).
Proof. intros st; eexists; apply newspaper_trace. Qed.

Lemma extends_rss (url : string) : extends_trace (try_rss_feed env url).
Proof. intros st; eexists; apply rss_trace. Qed.

Lemma extends_fallbacks (accept : FetchResult -> bool) (url : string) :
  extends_trace (try_fallbacks accept (fallback_methods env) url).
Proof.
  unfold fallback_methods; simpl.
  apply extends_bind; [apply extends_newspaper|]; intros r1.
  destruct (accept r1); [apply extends_ret|].
  apply extends_bind; [apply extends_rss|]; intros r2.
  destruct (accept r2); apply extends_ret.
Qed.

Ltac extends_step :=
  first [ apply extends_ret | apply extends_log | apply extends_call
        | apply extends_fallbacks | apply extends_newspaper
        | apply extends_bind; [|intros ?]
        | match goal with
          | |- extends_trace (if ?b then _ else _) => destruct b
          | |- extends_trace (match ?x with _ => _ end) => destruct x
          end ].

Lemma extends_handle_response (url : string) (use_fallbacks : bool)
      (response : HttpResponse) :
  extends_trace (handle_response env url use_fallbacks response).
Proof. unfold handle_response, blocked, extract; repeat extends_step. Qed.

Lemma extends_direct_http (url : string) (use_fallbacks : bool) :
  extends_trace (direct_http env url use_fallbacks).
Proof.
  unfold direct_http; repeat extends_step; apply extends_handle_response.
Qed.

(** where the floor on the content of a success does hold: the
    article-extraction library, and the direct request unless it ends in
    the partial extraction *)
Lemma newspaper_success_floor (url : string) (st : State W) :
  fr_success (fst (fetch_with_newspaper3k env url st)) = true ->
  50 < Py.len (content_of (fst (fetch_with_newspaper3k env url st))).
Proof.
  unfold fetch_with_newspaper3k, bind, log, call, ret. cbv beta iota.
  destruct (NEWSPAPER_AVAILABLE env); cbn [negb]; [|discriminate].
  cbn [world trace].
  destruct (article_download_parse env url (world st)) as [[article|] w];
    [|discriminate].
  destruct (Py.truthy (article_text article)); cbn [andb]; [|discriminate].
  destruct (Nat.ltb_spec 50 (Py.len (Py.strip (article_text article))));
    [|discriminate].
  intros _. assumption.
Qed.

Lemma direct_success_floor (url : string) (st : State W) (result : FetchResult) :
  fst (fetch_article_content env url false st) = Some result ->
  fr_success result = true ->
  fr_method result <> Some "requests (partial extraction)" ->
  50 <= Py.len (content_of result).
Proof.
  unfold fetch_article_content, direct_http, bind, log, call. cbv beta iota.
  cbn [world trace].
  destruct (session_get env url (world st)) as [[| |msg|response] w];
    try (cbn [fst ret]; intros E; injection E as <-; discriminate).
  unfold handle_response, blocked, bind, ret.
  destruct (status_code response =? 401);
    [cbn [fst]; intros E; injection E as <-; discriminate|].
  destruct (status_code response =? 403);
    [cbn [fst]; intros E; injection E as <-; discriminate|].
  destruct (status_code response =? 404);
    [cbn [fst]; intros E; injection E as <-; discriminate|].
  destruct (raises_for_status (status_code response));
    [cbn [fst]; intros E; injection E as <-; discriminate|].
  unfold extract, bind, ret.
  destruct (lacking (extract_content (soup response)) 80).
  - destruct (at_least (extract_content (soup response)) 50); cbn [fst];
      intros E; injection E as <-; [|discriminate].
    intros _ Hm. exfalso. apply Hm. reflexivity.
  - generalize (clean_content (Py.get (extract_content (soup response)) "")).
    intros cleaned.
    destruct (Nat.leb_spec 80 (Py.len cleaned)).
    + cbn [fst]. intros E; injection E as <-. intros _ _.
      unfold content_of; cbn. unfold Py.len in *. lia.
    + destruct (Py.truthy cleaned); cbn [andb]; [|discriminate].
      destruct (Nat.leb_spec 50 (Py.len cleaned)); [|discriminate].
      cbn [fst]. intros E; injection E as <-. intros _ _.
      unfold content_of; cbn. assumption.
Qed.

(** C2: with fallbacks enabled the article-extraction library is the
    first strategy invoked, and a successful result of more than 100
    characters is returned as it is, no other strategy being invoked. *)
Theorem newspaper_first_and_short_circuit (url : string) (st : State W) :
  let first := fetch_with_newspaper3k env url st in
  let final := fetch_article_content env url true st in
  (exists later, trace (snd final) = trace st ++ (Newspaper3k, url) :: later)
  /\ (fr_success (fst first) = true ->
      100 < Py.len (content_of (fst first)) ->
      final = (Some (fst first), snd first)
      /\ trace (snd final) = trace st ++ [(Newspaper3k, url)]).
Proof.
  pose proof (newspaper_trace url st) as Hnp.
  unfold fetch_article_content, bind, ret.
  destruct (fetch_with_newspaper3k env url st) as [r st1]; cbn [fst snd] in *.
  destruct (accepted_first r) eqn:Hacc.
  - split; [exists []; exact Hnp | auto].
  - destruct (extends_direct_http url true st1) as [more Hmore].
    split.
    + exists more. rewrite Hmore, Hnp, <- app_assoc; reflexivity.
    + intros Hs Hl. unfold accepted_first in Hacc.
      rewrite Hs in Hacc; simpl in Hacc.
      apply Nat.ltb_ge in Hacc. lia.
Qed.

(** C5: without fallbacks the direct request is the only strategy
    invoked, whatever the response: the trace grows by that one event and
    the world is the one the request left. *)
Theorem no_fallbacks_direct_only (url : string) (st : State W) :
  snd (fetch_article_content env url false st)
  = mkState (snd (session_get env url (world st)))
            (trace st ++ [(DirectHttp, url)]).
Proof. unfold fetch_article_content. apply direct_http_alone. Qed.

(** C4, amended: when the direct request is answered 403 and fallbacks
    are enabled, the article-extraction library is invoked again; its
    result is returned if it succeeds, and only otherwise is the RSS
    lookup invoked; when both fail the result is a failure whose error
    contains 403. *)
Theorem forbidden_fallbacks (url : string) (st st1 : State W)
        (newspaper_result : FetchResult) (response : HttpResponse) (w2 : W) :
  fetch_with_newspaper3k env url st = (newspaper_result, st1) ->
  accepted_first newspaper_result = false ->
  session_get env url (world st1) = (Responded response, w2) ->
  status_code response = 403 ->
  let again :=
    fetch_with_newspaper3k env url (mkState w2 (trace st1 ++ [(DirectHttp, url)])) in
  let feed := try_rss_feed env url (snd again) in
  let final := fetch_article_content env url true st in
  if fr_success (fst again) then
    fst final = Some (fst again)
    /\ trace (snd final)
       = trace st ++ [(Newspaper3k, url); (DirectHttp, url); (Newspaper3k, url)]
  else
    trace (snd final)
    = trace st ++ [(Newspaper3k, url); (DirectHttp, url);
                   (Newspaper3k, url); (RssFeed, url)]
    /\ if fr_success (fst feed) then fst final = Some (fst feed)
       else exists failed error,
           fst final = Some failed /\ fr_success failed = false
           /\ fr_error failed = Some error /\ Py.str_in "403" error = true.
Proof.
  intros Hfirst Hacc Hget Hstatus.
  pose proof (newspaper_trace url st) as T1. rewrite Hfirst in T1; simpl in T1.
  unfold fetch_article_content, bind. rewrite Hfirst, Hacc.
  unfold direct_http, bind, log, call. cbv beta iota. cbn [world trace].
  rewrite Hget. unfold handle_response. rewrite Hstatus.
  change (403 =? 401) with false. change (403 =? 403) with true. cbv iota.
  rewrite blocked_unroll.
  set (st2 := mkState w2 (trace st1 ++ [(DirectHttp, url)])).
  pose proof (newspaper_trace url st2) as T3.
  destruct (fetch_with_newspaper3k env url st2) as [again st3]; cbn [fst snd] in *.
  pose proof (rss_trace url st3) as T4.
  destruct (try_rss_feed env url st3) as [feed_result st4]; cbn [fst snd] in *.
  assert (E3 : trace st3 = trace st ++ [(Newspaper3k, url); (DirectHttp, url);
                                        (Newspaper3k, url)]).
  { rewrite T3. unfold st2. cbn [trace]. rewrite T1, <- !app_assoc. reflexivity. }
  destruct (fr_success again).
  - split; [reflexivity | exact E3].
  - destruct (fr_success feed_result); cbn [fst snd];
      (split; [rewrite T4, E3, <- app_assoc; reflexivity|]).
    + reflexivity.
    + eexists; eexists. repeat split.
Qed.

(** C8: on an empty candidate list the comparator fetches nothing and
    returns the record with [related_articles_found] false and a message,
    without [total_found] and without an [articles] list. *)
Theorem no_candidates (current_article : FetchResult) (st : State W) :
  analyze_related_articles env current_article [] st
  = (mkRelatedAnalysis false
       (Some "No related articles found on the same website") None None, st)
  /\ related_articles_found (fst (analyze_related_articles env current_article [] st))
     = false
  /\ (exists text, message (fst (analyze_related_articles env current_article [] st))
                   = Some text /\ 0 < Py.len text)
  /\ articles (fst (analyze_related_articles env current_article [] st)) = None.
Proof.
  repeat split. eexists; split; [reflexivity|]. unfold Py.len; simpl; lia.
Qed.

End Traces.

(** *** The related-article finder *)

Section Related.

Variable W : Type.
Variable env : Env W.

Lemma scan_entries_accepted (url current_content : string) (keywords : list string)
      (max_articles : Z) (entries : list Entry) :
  forall related_articles,
    Forall (accepted_candidate url) related_articles ->
    Forall (accepted_candidate url)
           (scan_entries url current_content keywords max_articles entries
                         related_articles).
Proof.
  induction entries as [|entry entries IH]; intros related H; [exact H|].
  cbn [scan_entries].
  destruct (String.eqb (Py.get (e_link entry) "") url) eqn:Heq; cbn [orb].
  { apply IH, H. }
  destruct (Py.str_in url (Py.get (e_link entry) "")) eqn:Hin.
  { apply IH, H. }
  match goal with |- context [(2 <=? ?score)%Z] =>
    destruct (Z.leb_spec 2 score) as [Hscore|_] end.
  - match goal with |- context [full max_articles ?l] =>
      assert (Hl : Forall (accepted_candidate url) l) end.
    { apply Forall_app; split; [exact H|].
      constructor; [|constructor].
      split; cbn.
      - apply String.eqb_neq, Heq.
      - split; [exact Hscore | exact Hin]. }
    match goal with |- context [full max_articles ?l] =>
      destruct (full max_articles l) end; [exact Hl | apply IH, Hl].
  - apply IH, H.
Qed.

Lemma scan_feeds_accepted (base_url url current_content : string)
      (keywords : list string) (max_articles : Z) (paths : list string) :
  forall related_articles st,
    Forall (accepted_candidate url) related_articles ->
    Forall (accepted_candidate url)
           (fst (scan_feeds env base_url url current_content keywords max_articles
                            paths related_articles st)).
Proof.
  induction paths as [|path paths IH]; intros related st H; [exact H|].
  cbn [scan_feeds]. unfold bind, call.
  destruct (feedparser_parse env (base_url ++ path)%string (world st))
    as [[entries|] w].
  - pose proof (scan_entries_accepted url current_content keywords max_articles
                  (firstn 20 entries) related H) as H'.
    destruct (full max_articles
                (scan_entries url current_content keywords max_articles
                              (firstn 20 entries) related)).
    + exact H'.
    + apply IH, H'.
  - apply IH, H.
Qed.

Lemma scan_links_accepted (base_url url : string) (keywords : list string)
      (max_articles : Z) (links : list Anchor) :
  forall related_articles,
    Forall (accepted_candidate url) related_articles ->
    Forall (accepted_candidate url)
           (fst (scan_links env base_url url keywords max_articles links
                            related_articles)).
Proof.
  induction links as [|link links IH]; intros related H; [exact H|].
  cbn [scan_links].
  destruct (Py.truthy (Py.get (a_href link) "")); [|apply IH, H].
  destruct (if negb (Py.startswith (Py.get (a_href link) "") "http")
            then urljoin env base_url (Py.get (a_href link) "")
            else Some (Py.get (a_href link) "")) as [href|]; [|exact H].
  destruct (String.eqb href url) eqn:Heq; cbn [negb andb]; [apply IH, H|].
  destruct (Py.str_in base_url href); [|apply IH, H].
  destruct (Py.truthy (a_text link) && (10 <? Py.len (a_text link)));
    [|apply IH, H].
  match goal with |- context [(1 <=? ?score)%Z] =>
    destruct (Z.leb_spec 1 score) as [Hscore|_] end; [|apply IH, H].
  match goal with |- context [full max_articles ?l] =>
    assert (Hl : Forall (accepted_candidate url) l) end.
  { apply Forall_app; split; [exact H|].
    constructor; [|constructor].
    split; cbn; [apply String.eqb_neq, Heq | exact Hscore]. }
  match goal with |- context [full max_articles ?l] =>
    destruct (full max_articles l) end; [exact Hl | apply IH, Hl].
Qed.

Lemma scan_selectors_accepted (page : Soup) (base_url url : string)
      (keywords : list string) (max_articles : Z) (selectors : list string) :
  forall related_articles,
    Forall (accepted_candidate url) related_articles ->
    Forall (accepted_candidate url)
           (scan_selectors env page base_url url keywords max_articles selectors
                           related_articles).
Proof.
  induction selectors as [|selector selectors IH]; intros related H; [exact H|].
  cbn [scan_selectors].
  pose proof (scan_links_accepted base_url url keywords max_articles
                (firstn 10 (soup_select page selector)) related H) as H'.
  destruct (scan_links env base_url url keywords max_articles
                       (firstn 10 (soup_select page selector)) related)
    as [related' [|]]; cbn [fst] in H'; [|exact H'].
  destruct (full max_articles related'); [exact H' | apply IH, H'].
Qed.

Lemma scan_page_accepted (base_url url : string) (keywords : list string)
      (max_articles : Z) (related_articles : list RelatedCandidate)
      (st : State W) :
  Forall (accepted_candidate url) related_articles ->
  Forall (accepted_candidate url)
         (fst (scan_page env base_url url keywords max_articles related_articles st)).
Proof.
  intros H. unfold scan_page, bind, call, ret.
  destruct (requests_get env url (world st)) as [[response|] w]; [|exact H].
  destruct (status_code response =? 200); [|exact H].
  apply scan_selectors_accepted, H.
Qed.

Lemma insert_by_score_keeps (P : RelatedCandidate -> Prop) (x : RelatedCandidate)
      (l : list RelatedCandidate) :
  P x -> Forall P l -> Forall P (insert_by_score x l).
Proof.
  intros Hx H; induction H as [|y l Hy H IH]; cbn [insert_by_score].
  - constructor; [exact Hx | constructor].
  - destruct (rc_relevance_score x <? rc_relevance_score y)%Z;
      repeat (constructor; try assumption).
Qed.

Lemma sort_by_score_keeps (P : RelatedCandidate -> Prop) (l : list RelatedCandidate) :
  Forall P l -> Forall P (sort_by_score l).
Proof.
  intros H; induction H; cbn; [constructor | apply insert_by_score_keeps; assumption].
Qed.

(** every candidate returned went through one of the two acceptance tests *)
Lemma find_related_accepted (url current_title current_content : string)
      (max_articles : Z) (st : State W) :
  Forall (accepted_candidate url)
         (fst (find_related_articles env url current_title current_content
                                     max_articles st)).
Proof.
  unfold find_related_articles.
  destruct (urlparse_base env url) as [base_url|]; [|constructor].
  unfold bind, ret.
  pose proof (scan_feeds_accepted base_url url current_content
                (keywords_of env current_title current_content) max_articles
                rss_paths [] st (Forall_nil _)) as H1.
  destruct (scan_feeds env base_url url current_content
                       (keywords_of env current_title current_content)
                       max_articles rss_paths [] st) as [related st1].
  cbn [fst] in H1.
  pose proof (scan_page_accepted base_url url
                (keywords_of env current_title current_content) max_articles
                related st1 H1) as H2.
  destruct (scan_page env base_url url
                      (keywords_of env current_title current_content)
                      max_articles related st1) as [related' st2].
  cbn [fst] in *.
  apply Forall_slice_to, sort_by_score_keeps, H2.
Qed.

(** C3, amended: every candidate returned has a relevance score of at
    least 1, and of at least 2 when it comes from the feed source. *)
Theorem relevance_floor (url current_title current_content : string)
        (max_articles : Z) (st : State W) :
  Forall (fun c => (1 <= rc_relevance_score c)%Z
                   /\ match rc_source c with
                      | rss_feed => (2 <= rc_relevance_score c)%Z
                      | page_links => True
                      end)
         (fst (find_related_articles env url current_title current_content
                                     max_articles st)).
Proof.
  eapply Forall_impl; [|apply find_related_accepted].
  intros c [_ H]. destruct (rc_source c).
  - destruct H as [H _]. split; [lia | exact H].
  - split; [exact H | exact I].
Qed.

(** no candidate returned has the address of the article itself, and no
    candidate of the feed source has an address that contains it *)
Lemma no_self_match (url current_title current_content : string)
      (max_articles : Z) (st : State W) :
  Forall (fun c => rc_url c <> url
                   /\ match rc_source c with
                      | rss_feed => Py.str_in url (rc_url c) = false
                      | page_links => True
                      end)
         (fst (find_related_articles env url current_title current_content
                                     max_articles st)).
Proof.
  eapply Forall_impl; [|apply find_related_accepted].
  intros c [Hne H]. split; [exact Hne|].
  destruct (rc_source c); [apply H | exact I].
Qed.

End Related.

(** *** The comparator *)

Section Comparator.

Variable W : Type.
Variable env : Env W.

Lemma scan_sentences_bound (current_sentences related_sentences : list string) :
  forall unique_info,
    length unique_info <= 2 ->
    length (scan_sentences current_sentences related_sentences unique_info) <= 3.
Proof.
  induction related_sentences as [|rel_sent rest IH]; intros unique_info H;
    cbn [scan_sentences]; [lia|].
  destruct (negb (existsb (fun curr_sent => Py.str_in (Py.take 50 rel_sent) curr_sent)
                          current_sentences)
            && existsb (fun kw => Py.str_in kw rel_sent) substantive);
    [|apply IH, H].
  destruct (Nat.leb_spec 3 (length (unique_info ++ [Py.take 150 rel_sent])))
    as [Hfull|Hroom].
  - rewrite length_app in *; cbn [length] in *; lia.
  - apply IH. lia.
Qed.

Lemma summary_truncated (summary : string) :
  (if Py.truthy summary then Py.take 200 summary else "") = Py.take 200 summary.
Proof. destruct summary; reflexivity. Qed.

(** one pass of the loop body *)
Lemma analyze_one_entry (current_content : string) (article : RelatedCandidate)
      (st : State W) :
  within_bounds (fst (analyze_one env current_content article st))
  /\ carries_over article (fst (analyze_one env current_content article st)).
Proof.
  unfold analyze_one, bind, ret. rewrite summary_truncated.
  assert (Hsum : Py.len (Py.take 200 (rc_summary article)) <= 200)
    by apply len_take.
  assert (H5 : forall s : list string,
             length (firstn 5 (Py.list_of_set (set_order env) s)) <= 5)
    by (intros s; apply firstn_le_length).
  destruct (fetch_article_content env (rc_url article) false st) as [[fetched|] st1];
    [destruct (fr_success fetched)|]; cbn [fst];
    (split; [unfold within_bounds | unfold carries_over];
     cbn [aa_comparison common_topics topics_in_related_not_in_current
          topics_in_current_not_in_related information_in_related_not_in_current
          aa_url aa_title aa_relevance_score aa_summary];
     repeat split; auto).
  apply scan_sentences_bound. cbn [length]; lia.
Qed.

Lemma analyze_each_entries (current_content : string)
      (related_articles : list RelatedCandidate) :
  forall st,
    Forall within_bounds (fst (analyze_each env current_content related_articles st))
    /\ Forall2 carries_over related_articles
               (fst (analyze_each env current_content related_articles st)).
Proof.
  induction related_articles as [|article rest IH]; intros st;
    cbn [analyze_each].
  - split; constructor.
  - unfold bind, ret.
    destruct (analyze_one_entry current_content article st) as [Hb Hc].
    destruct (analyze_one env current_content article st) as [a st1].
    destruct (IH st1) as [Hbs Hcs].
    destruct (analyze_each env current_content rest st1) as [analyses st2].
    cbn [fst] in *. split; constructor; assumption.
Qed.

(** C7: for a non-empty candidate list, every entry of the comparator has
    at most 5 topics in each of its three topic lists and, when the
    sentence comparison was made, at most 3 unique sentences. *)
Theorem comparison_bounds (current_article : FetchResult)
        (related_articles : list RelatedCandidate) (st : State W) :
  related_articles <> [] ->
  exists analyses,
    articles (fst (analyze_related_articles env current_article related_articles st))
    = Some analyses
    /\ Forall within_bounds analyses.
Proof.
  intros Hne. destruct related_articles as [|article rest]; [contradiction|].
  unfold analyze_related_articles, bind, ret.
  pose proof (analyze_each_entries (Py.lower (content_of current_article))
                (article :: rest) st) as [Hb _].
  destruct (analyze_each env (Py.lower (content_of current_article))
                         (article :: rest) st) as [analyses st1].
  exists analyses. split; [reflexivity | exact Hb].
Qed.

(** C10: for a non-empty candidate list, [total_found] is the number of
    candidates and [articles] holds one entry per candidate, in the order
    of the candidates, each with the address, title and relevance score
    of its candidate and with the first 200 characters of its summary. *)
Theorem comparison_frame (current_article : FetchResult)
        (related_articles : list RelatedCandidate) (st : State W) :
  related_articles <> [] ->
  let result :=
    fst (analyze_related_articles env current_article related_articles st) in
  related_articles_found result = true
  /\ total_found result = Some (length related_articles)
  /\ exists analyses,
      articles result = Some analyses
      /\ length analyses = length related_articles
      /\ Forall2 carries_over related_articles analyses.
Proof.
  intros Hne. destruct related_articles as [|article rest]; [contradiction|].
  unfold analyze_related_articles, bind, ret.
  pose proof (analyze_each_entries (Py.lower (content_of current_article))
                (article :: rest) st) as [_ Hc].
  destruct (analyze_each env (Py.lower (content_of current_article))
                         (article :: rest) st) as [analyses st1].
  cbn [fst] in *. repeat split.
  exists analyses. repeat split.
  - symmetry. eapply Forall2_length, Hc.
  - exact Hc.
Qed.

End Comparator.

(** *** The post-processing of the direct request *)

Lemma filter_map_comm {A B : Type} (f : B -> bool) (h : A -> B) (l : list A) :
  filter f (map h l) = map h (filter (fun x => f (h x)) l).
Proof.
  induction l as [|x l IH]; cbn; [reflexivity|].
  destruct (f (h x)); cbn; rewrite IH; reflexivity.
Qed.

Lemma filter_filter_implied {A : Type} (f g : A -> bool) (l : list A) :
  (forall x, f x = true -> g x = true) ->
  filter f (filter g l) = filter f l.
Proof.
  intros Himp; induction l as [|x l IH]; cbn; [reflexivity|].
  destruct (g x) eqn:Hg; cbn; rewrite IH.
  - reflexivity.
  - destruct (f x) eqn:Hf; [|reflexivity].
    apply Himp in Hf; congruence.
Qed.

Lemma keeps_long_lines (line : string) :
  keeps line = true -> Py.truthy line && (5 <? Py.len line) = true.
Proof.
  unfold keeps; intros H. apply andb_prop in H as [H _].
  apply Nat.ltb_lt in H. apply andb_true_intro; split.
  - destruct line; [cbn in H; lia | reflexivity].
  - apply Nat.ltb_lt; lia.
Qed.

(** the two passes of the source are one pass with the threshold 8 *)
Lemma clean_content_spec (article_content : string) :
  clean_content article_content = Py.join_nl (postprocess_spec 8 article_content).
Proof.
  unfold clean_content, postprocess_spec, filtered_lines, lines_of. f_equal. f_equal.
  rewrite <- (filter_map_comm (fun line => Py.truthy line && (5 <? Py.len line))).
  apply filter_filter_implied, keeps_long_lines.
Qed.

Section Postprocess.

Variable W : Type.
Variable env : Env W.

(** C9, amended: on the direct path, an extracted body of at least 80
    characters is split into lines, each stripped; the lines of 8 or
    fewer characters and the navigation-like lines are dropped, and at
    most 200 lines are kept; the content of the result is those lines. *)
Theorem postprocess_direct (url text : string) (st : State W)
        (response : HttpResponse) (w : W) :
  session_get env url (world st) = (Responded response, w) ->
  raises_for_status (status_code response) = false ->
  extract_content (soup response) = Some text ->
  80 <= Py.len text ->
  clean_content text = Py.join_nl (postprocess_spec 8 text)
  /\ length (postprocess_spec 8 text) <= 200
  /\ match fst (fetch_article_content env url false st) with
     | Some result =>
         fr_success result = true
         /\ fr_content result = Some (Py.join_nl (postprocess_spec 8 text))
     | None => Py.len (Py.join_nl (postprocess_spec 8 text)) < 50
     end.
Proof.
  intros Hget Hstatus Hcontent Hlen.
  split; [apply clean_content_spec|].
  split; [apply firstn_le_length|].
  unfold fetch_article_content, direct_http, bind, log, call.
  cbv beta iota. cbn [world trace]. rewrite Hget.
  unfold handle_response.
  assert (Hcodes : forall n, 400 <= n < 600 -> (status_code response =? n) = false).
  { intros n Hn. apply Nat.eqb_neq. intros E. unfold raises_for_status in Hstatus.
    rewrite E in Hstatus.
    destruct (Nat.leb_spec 400 n); destruct (Nat.ltb_spec n 600);
      cbn in Hstatus; try discriminate; lia. }
  rewrite !Hcodes by lia. rewrite Hstatus.
  unfold extract. rewrite Hcontent.
  assert (Hlack : lacking (Some text) 80 = false).
  { unfold lacking. destruct text; [cbn in Hlen; lia|].
    cbn [Py.truthy negb orb]. apply Nat.ltb_ge, Hlen. }
  rewrite Hlack. cbn [Py.get]. rewrite clean_content_spec.
  generalize (Py.join_nl (postprocess_spec 8 text)); intros cleaned.
  destruct (80 <=? Py.len cleaned); [cbn [fst ret]; split; reflexivity|].
  unfold bind, ret.
  destruct cleaned as [|c cleaned]; [cbn; lia|].
  cbn [Py.truthy andb].
  destruct (Nat.leb_spec 50 (Py.len (String c cleaned))); cbn [fst].
  - split; reflexivity.
  - assumption.
Qed.

End Postprocess.

(** *** The engine on concrete pages and feeds *)

Import Fixtures.

(** the page with an [article] element: the text is returned by the direct
    request *)
Example article_page_fetched :
  exists result st,
    fetch_article_content env_article url false start = (Some result, st)
    /\ fr_success result = true /\ fr_method result = Some "requests"
    /\ fr_content result = Some long_text.
Proof.
  eexists; eexists. split; [vm_compute; reflexivity|]. repeat split.
Qed.

(** C2 on a page the library reads well. *)
Lemma newspaper_first_and_short_circuit_witness :
  fetch_article_content env_long_library url true start
  = (Some (fst (fetch_with_newspaper3k env_long_library url start)),
     snd (fetch_with_newspaper3k env_long_library url start))
  /\ trace (snd (fetch_article_content env_long_library url true start))
     = trace start ++ [(Newspaper3k, url)].
Proof.
  apply (proj2 (newspaper_first_and_short_circuit unit env_long_library url start));
    [reflexivity | vm_compute; lia].
Defined.

(** C4, as stated, fails: the library extracts 60 characters, too few for
    the first test but a success for the fallback loop, which returns
    before the RSS lookup. *)
Lemma forbidden_without_rss_lookup :
  session_get env_short_library url tt = (forbidden, tt)
  /\ trace (snd (fetch_article_content env_short_library url true start))
     = [(Newspaper3k, url); (DirectHttp, url); (Newspaper3k, url)]
  /\ ~ In (RssFeed, url)
          (trace (snd (fetch_article_content env_short_library url true start)))
  /\ exists result,
      fst (fetch_article_content env_short_library url true start) = Some result
      /\ fr_success result = true.
Proof.
  split; [reflexivity|]. split; [reflexivity|]. split.
  - vm_compute. intros [H|[H|[H|[]]]]; discriminate.
  - eexists; split; reflexivity.
Qed.

(** C4, amended, where every strategy fails. *)
Lemma forbidden_fallbacks_witness :
  trace (snd (fetch_article_content env_blocked url true start))
  = [(Newspaper3k, url); (DirectHttp, url); (Newspaper3k, url); (RssFeed, url)]
  /\ exists failed error,
      fst (fetch_article_content env_blocked url true start) = Some failed
      /\ fr_success failed = false
      /\ fr_error failed = Some error /\ Py.str_in "403" error = true.
Proof.
  exact (forbidden_fallbacks unit env_blocked url start
           (snd (fetch_with_newspaper3k env_blocked url start))
           (fst (fetch_with_newspaper3k env_blocked url start))
           (mkHttpResponse 403 "403 Client Error: Forbidden" no_page) tt
           eq_refl eq_refl eq_refl eq_refl).
Defined.

(** C1: two calls that return [success] with an empty content.  On a 403
    the feed entry of the article, which has no summary, is returned as it
    is; and a page of 64 characters in short lines passes the test on 50
    characters before its lines are dropped. *)
Theorem success_with_empty_content :
  (exists result st,
      fetch_article_content env_blocked_feed url true start = (Some result, st)
      /\ fr_success result = true /\ fr_method result = Some "rss_feed"
      /\ fr_content result = Some "")
  /\ (exists result st,
         fetch_article_content env_menu url false start = (Some result, st)
         /\ fr_success result = true
         /\ fr_method result = Some "requests (partial extraction)"
         /\ fr_content result = Some "").
Proof.
  split; eexists; eexists; (split; [vm_compute; reflexivity|]); repeat split.
Qed.

(** C3, as stated, fails: a link of the page whose text shares one keyword
    with the title is returned with the score 1. *)
Lemma score_one_page_link :
  ~ Forall (fun c => (2 <= rc_relevance_score c)%Z)
      (fst (find_related_articles env_one_keyword url "Moscow summit" "" 5 start)).
Proof.
  vm_compute. intros H. inversion H as [|c l Hc _]. apply Hc. reflexivity.
Qed.

(** C6: a link of the page to the article itself, with a tracking
    parameter, is returned. *)
Theorem tracking_alias_returned :
  exists c,
    In c (fst (find_related_articles env_tracking url "Moscow summit" "" 5 start))
    /\ rc_source c = page_links
    /\ rc_url c = (url ++ "?utm_source=related")%string
    /\ Py.str_in url (rc_url c) = true.
Proof.
  eexists. split; [vm_compute; left; reflexivity|]. repeat split.
Qed.

(** C7 on one candidate and a page with an article. *)
Lemma comparison_bounds_witness :
  exists analyses,
    articles (fst (analyze_related_articles env_article current [candidate] start))
    = Some analyses
    /\ Forall within_bounds analyses.
Proof.
  apply (comparison_bounds unit env_article current [candidate] start).
  discriminate.
Defined.

(** C10 on one candidate and a page with an article. *)
Lemma comparison_frame_witness :
  related_articles_found
    (fst (analyze_related_articles env_article current [candidate] start)) = true
  /\ total_found
       (fst (analyze_related_articles env_article current [candidate] start)) = Some 1
  /\ exists analyses,
      articles (fst (analyze_related_articles env_article current [candidate] start))
      = Some analyses
      /\ length analyses = 1
      /\ Forall2 carries_over [candidate] analyses.
Proof.
  apply (comparison_frame unit env_article current [candidate] start).
  discriminate.
Defined.

(** C9, as stated, fails: a line of seven characters that is not in
    capitals is dropped; and a body of fewer than 80 characters is cleaned
    otherwise, its lines of up to 10 characters being dropped. *)
Lemma seven_letter_line_dropped :
  In "By Asha" (map Py.strip (Py.split Py.newline byline_text))
  /\ 5 < Py.len "By Asha"
  /\ navigation_like "By Asha" = false
  /\ In "By Asha" (postprocess_spec 5 byline_text)
  /\ ~ In "By Asha" (firstn 200 (filtered_lines byline_text))
  /\ (exists result st,
         fetch_article_content env_byline url false start = (Some result, st)
         /\ fr_method result = Some "requests"
         /\ fr_content result = Some long_text
         /\ fr_content result <> Some (Py.join_nl (postprocess_spec 5 byline_text)))
  /\ (exists result st,
         fetch_article_content env_menu url false start = (Some result, st)
         /\ In "World news" (postprocess_spec 5 menu_text)
         /\ fr_content result = Some ""
         /\ fr_content result <> Some (Py.join_nl (postprocess_spec 5 menu_text))).
Proof.
  split; [vm_compute; left; reflexivity|].
  split; [vm_compute; lia|].
  split; [reflexivity|].
  split; [vm_compute; left; reflexivity|].
  split; [vm_compute; intros [H|[]]; discriminate|].
  split.
  - eexists; eexists. split; [vm_compute; reflexivity|].
    split; [reflexivity|]. split; [reflexivity|].
    vm_compute. discriminate.
  - eexists; eexists. split; [vm_compute; reflexivity|].
    split; [vm_compute; right; left; reflexivity|]. split; [reflexivity|].
    vm_compute. discriminate.
Qed.

(** C9, amended, on the same page. *)
Lemma postprocess_direct_witness :
  clean_content byline_text = Py.join_nl (postprocess_spec 8 byline_text)
  /\ length (postprocess_spec 8 byline_text) <= 200
  /\ match fst (fetch_article_content env_byline url false start) with
     | Some result =>
         fr_success result = true
         /\ fr_content result = Some (Py.join_nl (postprocess_spec 8 byline_text))
     | None => Py.len (Py.join_nl (postprocess_spec 8 byline_text)) < 50
     end.
Proof.
  apply (postprocess_direct unit env_byline url byline_text start
           (mkHttpResponse 200 "" (article_page byline_text)) tt);
    [reflexivity | reflexivity | reflexivity | vm_compute; lia].
Defined.

(** *** The direct request: terminal outcomes *)

Section Terminal.

Variable W : Type.
Variable env : Env W.

(** the call is the direct request made in the state [before_direct] *)
Lemma fetch_is_direct (url : string) (use_fallbacks : bool) (st st1 : State W) :
  before_direct env url use_fallbacks st = Some st1 ->
  fetch_article_content env url use_fallbacks st = direct_http env url use_fallbacks st1.
Proof.
  unfold before_direct, fetch_article_content, bind.
  destruct use_fallbacks.
  - destruct (fetch_with_newspaper3k env url st) as [r s]; cbn [fst snd].
    destruct (accepted_first r); [discriminate|].
    intros E; injection E as <-. reflexivity.
  - intros E; injection E as <-. reflexivity.
Qed.

Lemma direct_http_answer (url : string) (use_fallbacks : bool) (st : State W)
      (outcome : HttpOutcome) (w : W) :
  session_get env url (world st) = (outcome, w) ->
  direct_http env url use_fallbacks st
  = match outcome with
    | Timeout =>
        (Some (failure_at "Request timed out. The website may be slow or unreachable."
                          url None), after_direct url st w)
    | ConnectionError =>
        (Some (failure_at "Connection error. Please check your internet connection."
                          url None), after_direct url st w)
    | OtherException msg =>
        (Some (failure_at ("Error fetching article: " ++ msg)%string url None),
         after_direct url st w)
    | Responded response =>
        handle_response env url use_fallbacks response (after_direct url st w)
    end.
Proof.
  intros Hget. unfold direct_http, bind, log, call. cbv beta iota.
  cbn [world trace]. rewrite Hget. destruct outcome; reflexivity.
Qed.

(** X1: a 404 is terminal.  With or without fallbacks, the result is the
    404 failure and no strategy is invoked after the direct request. *)
Theorem not_found_is_terminal (url : string) (use_fallbacks : bool)
        (st st1 : State W) (response : HttpResponse) (w : W) :
  before_direct env url use_fallbacks st = Some st1 ->
  session_get env url (world st1) = (Responded response, w) ->
  status_code response = 404 ->
  fetch_article_content env url use_fallbacks st
  = (Some (failure_at
             "404 Not Found: The article URL doesn't exist or has been removed."
             url None),
     after_direct url st1 w).
Proof.
  intros Hb Hget Hs.
  rewrite (fetch_is_direct _ _ _ _ Hb), (direct_http_answer _ _ _ _ _ Hget).
  unfold handle_response. rewrite Hs. reflexivity.
Qed.

(** X2: a request that times out, cannot connect or raises otherwise is
    terminal too: the result is a failure carrying the address, and no
    fallback strategy is invoked after it, even with fallbacks enabled. *)
Theorem network_failure_is_terminal (url : string) (use_fallbacks : bool)
        (st st1 : State W) (outcome : HttpOutcome) (w : W) :
  before_direct env url use_fallbacks st = Some st1 ->
  session_get env url (world st1) = (outcome, w) ->
  (forall response, outcome <> Responded response) ->
  exists failed,
    fetch_article_content env url use_fallbacks st = (Some failed, after_direct url st1 w)
    /\ fr_success failed = false
    /\ fr_url failed = Some url
    /\ fr_error failed
       = Some match outcome with
              | Timeout => "Request timed out. The website may be slow or unreachable."
              | ConnectionError =>
                  "Connection error. Please check your internet connection."
              | OtherException msg => ("Error fetching article: " ++ msg)%string
              | Responded _ => ""
              end.
Proof.
  intros Hb Hget Hno.
  rewrite (fetch_is_direct _ _ _ _ Hb), (direct_http_answer _ _ _ _ _ Hget).
  destruct outcome as [| |msg|response];
    try (eexists; repeat split; reflexivity).
  exfalso. apply (Hno response). reflexivity.
Qed.

(** X3: any other 4xx or 5xx status is terminal as well: the failure
    records the status code, its error starts with HTTP Error and the
    code, and no fallback strategy is invoked. *)
Theorem http_error_is_terminal (url : string) (use_fallbacks : bool)
        (st st1 : State W) (response : HttpResponse) (w : W) :
  before_direct env url use_fallbacks st = Some st1 ->
  session_get env url (world st1) = (Responded response, w) ->
  400 <= status_code response < 600 ->
  status_code response <> 401 ->
  status_code response <> 403 ->
  status_code response <> 404 ->
  exists failed,
    fetch_article_content env url use_fallbacks st = (Some failed, after_direct url st1 w)
    /\ fr_success failed = false
    /\ fr_status_code failed = Some (status_code response)
    /\ fr_error failed
       = Some ("HTTP Error " ++ Py.str_of_nat (status_code response) ++ ": "
               ++ http_error_text response)%string.
Proof.
  intros Hb Hget Hrange H401 H403 H404.
  rewrite (fetch_is_direct _ _ _ _ Hb), (direct_http_answer _ _ _ _ _ Hget).
  unfold handle_response.
  apply Nat.eqb_neq in H401, H403, H404. rewrite H401, H403, H404.
  assert (Hr : raises_for_status (status_code response) = true).
  { unfold raises_for_status. apply andb_true_intro; split.
    - apply Nat.leb_le; lia.
    - apply Nat.ltb_lt; lia. }
  rewrite Hr. eexists; repeat split; reflexivity.
Qed.

End Terminal.

Import Cases.

Lemma not_found_is_terminal_witness :
  fetch_article_content (env_answering (answered 404 "")) url true start
  = (Some (failure_at
             "404 Not Found: The article URL doesn't exist or has been removed."
             url None),
     after_direct url
       (snd (fetch_with_newspaper3k (env_answering (answered 404 "")) url start)) tt).
Proof.
  apply (not_found_is_terminal unit (env_answering (answered 404 "")) url true start
           _ (mkHttpResponse 404 "" no_page) tt);
    reflexivity.
Defined.

Lemma network_failure_is_terminal_witness :
  exists failed,
    fetch_article_content (env_answering Timeout) url true start
    = (Some failed,
       after_direct url (snd (fetch_with_newspaper3k (env_answering Timeout) url start)) tt)
    /\ fr_success failed = false
    /\ fr_url failed = Some url
    /\ fr_error failed
       = Some "Request timed out. The website may be slow or unreachable.".
Proof.
  apply (network_failure_is_terminal unit (env_answering Timeout) url true start
           _ Timeout tt); [reflexivity | reflexivity | discriminate].
Defined.

Lemma http_error_is_terminal_witness :
  exists failed,
    fetch_article_content (env_answering (answered 503 "503 Server Error")) url false start
    = (Some failed, after_direct url start tt)
    /\ fr_success failed = false
    /\ fr_status_code failed = Some 503
    /\ fr_error failed = Some "HTTP Error 503: 503 Server Error".
Proof.
  apply (http_error_is_terminal unit (env_answering (answered 503 "503 Server Error"))
           url false start start (mkHttpResponse 503 "503 Server Error" no_page) tt);
    try reflexivity; try (cbn; lia); discriminate.
Defined.

(** *** The shape of the results *)

Section Shape.

Variable W : Type.
Variable env : Env W.

Lemma newspaper_shape (url : string) (st : State W) :
  fr_success (fst (fetch_with_newspaper3k env url st)) = true ->
  well_formed url (fst (fetch_with_newspaper3k env url st)).
Proof.
  unfold fetch_with_newspaper3k, bind, log, call, ret. cbv beta iota.
  destruct (NEWSPAPER_AVAILABLE env); cbn [negb]; [|discriminate].
  cbn [world trace].
  destruct (article_download_parse env url (world st)) as [[article|] w];
    [|discriminate].
  destruct (Py.truthy (article_text article)
            && (50 <? Py.len (Py.strip (article_text article)))); [|discriminate].
  intros _. unfold well_formed; cbn. repeat split; discriminate.
Qed.

Lemma rss_paths_shape (base_url url : string) (paths : list string) :
  forall st,
    fr_success (fst (try_rss_paths env base_url url paths st)) = true ->
    well_formed url (fst (try_rss_paths env base_url url paths st)).
Proof.
  induction paths as [|path paths IH]; intros st; [discriminate|].
  cbn [try_rss_paths]. unfold bind, call.
  destruct (feedparser_parse env (base_url ++ path)%string (world st))
    as [[entries|] w]; [|apply IH].
  destruct (find (entry_matches url) (firstn 10 entries)); [|apply IH].
  intros _. unfold well_formed; cbn. repeat split; discriminate.
Qed.

Lemma rss_shape (url : string) (st : State W) :
  fr_success (fst (try_rss_feed env url st)) = true ->
  well_formed url (fst (try_rss_feed env url st)).
Proof.
  unfold try_rss_feed, bind, log. cbv beta iota.
  destruct (urlparse_base env url); [apply rss_paths_shape | discriminate].
Qed.

Lemma fallbacks_shape (accept : FetchResult -> bool) (url : string) (st : State W)
      (r : FetchResult) :
  (forall x, accept x = true -> fr_success x = true) ->
  fst (try_fallbacks accept (fallback_methods env) url st) = Some r ->
  well_formed url r.
Proof.
  intros Hacc. rewrite try_fallbacks_unroll.
  pose proof (newspaper_shape url st) as H1.
  destruct (fetch_with_newspaper3k env url st) as [r1 st1]; cbn [fst] in H1.
  destruct (accept r1) eqn:A1.
  - intros E; injection E as <-. apply H1, Hacc, A1.
  - pose proof (rss_shape url st1) as H2.
    destruct (try_rss_feed env url st1) as [r2 st2]; cbn [fst] in H2.
    destruct (accept r2) eqn:A2; [|discriminate].
    intros E; injection E as <-. apply H2, Hacc, A2.
Qed.

Lemma long_enough_success (x : FetchResult) :
  long_enough x = true -> fr_success x = true.
Proof. unfold long_enough. intros H; apply andb_prop in H; apply H. Qed.

Lemma success_result_shape (title_text article_content url method : string)
      (warning : option string) :
  well_formed url (success_result title_text article_content url method warning).
Proof. unfold well_formed; cbn. repeat split; discriminate. Qed.

Lemma failure_at_shape (msg url : string) (suggestion : option string) :
  well_formed url (failure_at msg url suggestion).
Proof. unfold well_formed; cbn. repeat split; discriminate. Qed.

Lemma optional_fallbacks_shape (accept : FetchResult -> bool) (url : string)
      (use_fallbacks : bool) (st : State W) (r : FetchResult) :
  (forall x, accept x = true -> fr_success x = true) ->
  fst ((if use_fallbacks then try_fallbacks accept (fallback_methods env) url
        else ret None) st) = Some r ->
  well_formed url r.
Proof.
  intros Hacc. destruct use_fallbacks; [apply fallbacks_shape, Hacc | discriminate].
Qed.

Lemma extract_shape (url : string) (use_fallbacks : bool) (page : Soup)
      (st : State W) (r : FetchResult) :
  fst (extract env url use_fallbacks page st) = Some r -> well_formed url r.
Proof.
  unfold extract, bind.
  destruct (lacking (extract_content page) 80).
  - pose proof (optional_fallbacks_shape long_enough url use_fallbacks st) as Hf.
    destruct ((if use_fallbacks
               then try_fallbacks long_enough (fallback_methods env) url
               else ret None) st) as [[x|] st1]; cbn [fst] in Hf.
    + intros E; injection E as <-. apply Hf; [apply long_enough_success | reflexivity].
    + destruct (at_least (extract_content page) 50); cbn [fst ret];
        intros E; injection E as <-;
        [apply success_result_shape | apply failure_at_shape].
  - generalize (clean_content (Py.get (extract_content page) "")); intros cleaned.
    destruct (80 <=? Py.len cleaned).
    + cbn [fst ret]. intros E; injection E as <-. apply success_result_shape.
    + pose proof (optional_fallbacks_shape long_enough url use_fallbacks st) as Hf.
      destruct ((if use_fallbacks
                 then try_fallbacks long_enough (fallback_methods env) url
                 else ret None) st) as [[x|] st1]; cbn [fst] in Hf.
      * intros E; injection E as <-.
        apply Hf; [apply long_enough_success | reflexivity].
      * destruct (Py.truthy cleaned && (50 <=? Py.len cleaned)); cbn [fst ret];
          [|discriminate].
        intros E; injection E as <-. apply success_result_shape.
Qed.

Lemma blocked_shape (url msg suggestion : string) (use_fallbacks : bool)
      (st : State W) (r : FetchResult) :
  fst (blocked env url use_fallbacks msg suggestion st) = Some r -> well_formed url r.
Proof.
  unfold blocked, bind.
  pose proof (optional_fallbacks_shape fr_success url use_fallbacks st) as Hf.
  destruct ((if use_fallbacks
             then try_fallbacks fr_success (fallback_methods env) url
             else ret None) st) as [[x|] st1]; cbn [fst ret] in *;
    intros E; injection E as <-.
  - apply Hf; auto.
  - apply failure_at_shape.
Qed.

Lemma handle_response_shape (url : string) (use_fallbacks : bool)
      (response : HttpResponse) (st : State W) (r : FetchResult) :
  fst (handle_response env url use_fallbacks response st) = Some r ->
  well_formed url r.
Proof.
  unfold handle_response.
  destruct (status_code response =? 401); [apply blocked_shape|].
  destruct (status_code response =? 403); [apply blocked_shape|].
  destruct (status_code response =? 404).
  { cbn [fst ret]. intros E; injection E as <-. apply failure_at_shape. }
  destruct (raises_for_status (status_code response)).
  { cbn [fst ret]. intros E; injection E as <-.
    unfold well_formed; cbn. repeat split; discriminate. }
  apply extract_shape.
Qed.

Lemma direct_http_shape (url : string) (use_fallbacks : bool) (st : State W)
      (r : FetchResult) :
  fst (direct_http env url use_fallbacks st) = Some r -> well_formed url r.
Proof.
  destruct (session_get env url (world st)) as [outcome w] eqn:Hget.
  rewrite (direct_http_answer W env url use_fallbacks st outcome w Hget).
  destruct outcome as [| |msg|response];
    try (cbn [fst]; intros E; injection E as <-; apply failure_at_shape).
  apply handle_response_shape.
Qed.

Lemma fetch_shape (url : string) (use_fallbacks : bool) (st : State W)
      (r : FetchResult) :
  fst (fetch_article_content env url use_fallbacks st) = Some r -> well_formed url r.
Proof.
  unfold fetch_article_content, bind. destruct use_fallbacks;
    [|apply direct_http_shape].
  pose proof (newspaper_shape url st) as H1.
  destruct (fetch_with_newspaper3k env url st) as [r1 st1]; cbn [fst] in H1.
  destruct (accepted_first r1) eqn:A; [|apply direct_http_shape].
  cbn [fst ret]. intros E; injection E as <-.
  apply H1. unfold accepted_first in A. apply andb_prop in A. apply A.
Qed.

(** X4: every dictionary the call returns carries the address it was
    called with, whichever strategy produced it. *)
Theorem result_carries_url (url : string) (use_fallbacks : bool) (st : State W)
        (r : FetchResult) :
  fst (fetch_article_content env url use_fallbacks st) = Some r ->
  fr_url r = Some url.
Proof. intros H. apply (fetch_shape _ _ _ _ H). Qed.

(** X5: a returned success always has a title, a content and a method and
    no error; a returned failure always has an error and neither content
    nor title; a recorded content length is the length of the content. *)
Theorem result_is_well_formed (url : string) (use_fallbacks : bool) (st : State W)
        (r : FetchResult) :
  fst (fetch_article_content env url use_fallbacks st) = Some r ->
  (fr_success r = true ->
   exists title_text article_content method,
     fr_title r = Some title_text /\ fr_content r = Some article_content
     /\ fr_method r = Some method /\ fr_error r = None)
  /\ (fr_success r = false ->
      exists error,
        fr_error r = Some error /\ fr_content r = None /\ fr_title r = None)
  /\ (forall n, fr_content_length r = Some n -> n = Py.len (content_of r)).
Proof.
  intros H. destruct (fetch_shape _ _ _ _ H) as (_ & Hs & Hl).
  split; [|split].
  - intros E. rewrite E in Hs. destruct Hs as (Ht & Hc & Hm & He).
    destruct (fr_title r) as [t|]; [|contradiction].
    destruct (fr_content r) as [c|]; [|contradiction].
    destruct (fr_method r) as [m|]; [|contradiction].
    exists t, c, m. auto.
  - intros E. rewrite E in Hs. destruct Hs as (He & Hc & Ht).
    destruct (fr_error r) as [e|]; [|contradiction].
    exists e. auto.
  - intros n E. rewrite E in Hl. exact Hl.
Qed.

End Shape.

Lemma result_carries_url_witness :
  fr_url (failure_at
            "403 Forbidden: Access denied. This website may block automated requests."
            url
            (Some "This site blocks automated access. Options: 1) Use browser automation (Selenium/Playwright), 2) Try newspaper3k library, 3) Check for RSS feed, 4) Copy article content manually."))
  = Some url.
Proof.
  apply (result_carries_url unit Fixtures.env_blocked url true start).
  reflexivity.
Defined.

Lemma result_is_well_formed_witness :
  (fr_success (success_result "No title found" long_text url "requests" None) = true ->
   exists title_text article_content method,
     fr_title (success_result "No title found" long_text url "requests" None)
     = Some title_text
     /\ fr_content (success_result "No title found" long_text url "requests" None)
        = Some article_content
     /\ fr_method (success_result "No title found" long_text url "requests" None)
        = Some method
     /\ fr_error (success_result "No title found" long_text url "requests" None) = None)
  /\ (fr_success (success_result "No title found" long_text url "requests" None) = false ->
      exists error,
        fr_error (success_result "No title found" long_text url "requests" None)
        = Some error
        /\ fr_content (success_result "No title found" long_text url "requests" None)
           = None
        /\ fr_title (success_result "No title found" long_text url "requests" None)
           = None)
  /\ (forall n,
         fr_content_length (success_result "No title found" long_text url "requests" None)
         = Some n ->
         n = Py.len (content_of (success_result "No title found" long_text url
                                                "requests" None))).
Proof.
  apply (result_is_well_formed unit Fixtures.env_article url false start).
  vm_compute. reflexivity.
Defined.

(** *** The extraction cascade *)

Lemma nonempty_truthy (text : string) : 0 < Py.len text -> Py.truthy text = true.
Proof. destruct text; cbn; [lia | reflexivity]. Qed.

Lemma lacking_long (text : string) (n : nat) :
  0 < n -> n <= Py.len text -> lacking (Some text) n = false.
Proof.
  intros Hn H. unfold lacking. rewrite nonempty_truthy by lia.
  cbn [negb orb]. apply Nat.ltb_ge, H.
Qed.

Lemma lacking_short (article_content : option string) (n : nat) :
  lacking article_content n = false ->
  exists text, article_content = Some text /\ n <= Py.len text.
Proof.
  destruct article_content as [text|]; [|discriminate].
  unfold lacking. intros H. apply orb_false_elim in H as [_ H].
  exists text. split; [reflexivity | apply Nat.ltb_ge, H].
Qed.

Lemma select_content_first (page : Soup) (before after : list string)
      (selector : string) (element : Element) :
  (forall s, In s before ->
             match soup_select_one page s with
             | Some (Some found) => Py.len (el_text_lines found) <= 150
             | _ => True
             end) ->
  soup_select_one page selector = Some (Some element) ->
  150 < Py.len (el_text_lines element) ->
  forall article_content,
    select_content page (before ++ selector :: after) article_content
    = Some (el_text_lines element).
Proof.
  intros Hbefore Hsel Hlong.
  induction before as [|s before IH]; intros acc; cbn [app select_content].
  - rewrite Hsel. apply Nat.ltb_lt in Hlong. rewrite Hlong. reflexivity.
  - pose proof (Hbefore s (or_introl eq_refl)) as Hs.
    assert (IH' := IH (fun x Hx => Hbefore x (or_intror Hx))).
    destruct (soup_select_one page s) as [[found|]|]; try apply IH'.
    apply Nat.ltb_ge in Hs. rewrite Hs. apply IH'.
Qed.

(** X6: the content selectors are tried in their order: the first one
    whose element has more than 150 characters of text gives the content,
    whatever the later selectors, the paragraphs, the divs or the body
    hold. *)
Theorem first_long_selector_wins (page : Soup) (before after : list string)
        (selector : string) (element : Element) :
  content_selectors = before ++ selector :: after ->
  (forall s, In s before ->
             match soup_select_one page s with
             | Some (Some found) => Py.len (el_text_lines found) <= 150
             | _ => True
             end) ->
  soup_select_one page selector = Some (Some element) ->
  150 < Py.len (el_text_lines element) ->
  extract_content page = Some (el_text_lines element).
Proof.
  intros Hsplit Hbefore Hsel Hlong.
  unfold extract_content. rewrite Hsplit.
  rewrite (select_content_first page before after selector element Hbefore Hsel Hlong).
  unfold paragraphs_step. rewrite lacking_long by lia.
  unfold divs_step. rewrite lacking_long by lia.
  unfold body_step. rewrite lacking_long by lia.
  reflexivity.
Qed.

Lemma select_content_nothing (page : Soup) (selectors : list string) :
  (forall s, In s selectors ->
             soup_select_one page s = None \/ soup_select_one page s = Some None) ->
  select_content page selectors None = None.
Proof.
  induction selectors as [|s selectors IH]; intros H; [reflexivity|].
  cbn [select_content].
  destruct (H s (or_introl eq_refl)) as [E|E]; rewrite E;
    apply IH; intros x Hx; apply H; right; exact Hx.
Qed.

(** X7: when no content selector finds an element, the paragraphs of more
    than 20 characters, joined by newlines, are the content as soon as
    they make up 100 characters; the divs and the body are not used. *)
Theorem paragraphs_when_no_selector (page : Soup) :
  (forall s, In s content_selectors ->
             soup_select_one page s = None \/ soup_select_one page s = Some None) ->
  100 <= Py.len (Py.join_nl
                   (filter (fun t => Py.truthy t && (20 <? Py.len t))
                           (map el_text_strip (soup_find_all_p page)))) ->
  extract_content page
  = Some (Py.join_nl (filter (fun t => Py.truthy t && (20 <? Py.len t))
                             (map el_text_strip (soup_find_all_p page)))).
Proof.
  intros Hnone Hlen. unfold extract_content.
  rewrite (select_content_nothing page content_selectors Hnone).
  unfold paragraphs_step. cbn [lacking].
  destruct (filter (fun t => Py.truthy t && (20 <? Py.len t))
                   (map el_text_strip (soup_find_all_p page))) as [|t ts] eqn:E.
  - cbn in Hlen. lia.
  - unfold divs_step. rewrite lacking_long by lia.
    unfold body_step. rewrite lacking_long by lia.
    reflexivity.
Qed.

(** X8: the body is the last resort: on a page with a body the extraction
    always yields a text, and a text of fewer than 80 characters can only
    be the text of the body. *)
Theorem body_is_last_resort (page : Soup) (body : Element) :
  soup_body page = Some body ->
  exists text,
    extract_content page = Some text
    /\ (Py.len text < 80 -> text = el_text_lines body).
Proof.
  intros Hbody. unfold extract_content, body_step.
  destruct (lacking (divs_step page
                       (paragraphs_step page
                          (select_content page content_selectors None))) 80) eqn:E.
  - rewrite Hbody. exists (el_text_lines body). split; [reflexivity | auto].
  - apply lacking_short in E as (text & -> & Hlen).
    exists text. split; [reflexivity | lia].
Qed.

Lemma strip_truthy (text : string) :
  Py.truthy (Py.strip text) = true -> Py.truthy text = true.
Proof. destruct text; [discriminate | reflexivity]. Qed.

(** X9: the og:title meta tag comes first: when it is there with a
    content that is not blank, the title is that content, stripped,
    whatever the twitter:title tag, the heading and the title tag hold. *)
Theorem og_title_comes_first (page : Soup) (element : Element) :
  soup_find page "meta" (Some ("property", "og:title")) = Some element ->
  Py.truthy (Py.strip (Py.or_else (Py.get (el_attr_content element) "")
                                  (el_text element))) = true ->
  extract_title page title_selectors "No title found"
  = Py.strip (Py.or_else (Py.get (el_attr_content element) "") (el_text element)).
Proof.
  intros Hfind Hblank. unfold title_selectors. cbn [extract_title].
  rewrite Hfind, Hblank, (strip_truthy _ Hblank). reflexivity.
Qed.

(** X10: a blank element overwrites the default title: when the heading is
    the only title element and its text is blank, the title is that blank
    text and not the default. *)
Theorem blank_title_replaces_default (page : Soup) (heading : Element) :
  soup_find page "meta" (Some ("property", "og:title")) = None ->
  soup_find page "meta" (Some ("name", "twitter:title")) = None ->
  soup_find page "h1" None = Some heading ->
  soup_find page "title" None = None ->
  el_attr_content heading = None ->
  Py.strip (el_text heading) = "" ->
  extract_title page title_selectors "No title found" = el_text heading.
Proof.
  intros Hog Htw Hh1 Htitle Hattr Hblank. unfold title_selectors.
  cbn [extract_title]. rewrite Hog, Htw, Hh1, Htitle, Hattr.
  cbn [Py.get Py.or_else Py.truthy]. rewrite Hblank. cbn [Py.truthy].
  rewrite andb_false_r. reflexivity.
Qed.

Lemma first_long_selector_wins_witness :
  extract_content (story_page short_text long_text) = Some long_text.
Proof.
  apply (first_long_selector_wins (story_page short_text long_text)
           ["article"; attr_is "role" "article"; ".article-content"; ".article-body";
            ".post-content"]
           [".content-body"; ".entry-content";
            ".post-body"; ".article-text"; ".article-main"; ".story-content";
            ".article-wrapper"; ".content-wrapper"; attr_has "class" "article";
            attr_has "class" "story"; attr_has "class" "content";
            attr_has "class" "post"; attr_has "class" "entry"; "main";
            ".main-content"; "#main-content"; "#article-content"; "#story-content";
            attr_has "id" "article"; attr_has "id" "content"; attr_has "id" "story"]
           ".story-body" (text_element long_text)).
  - reflexivity.
  - intros s [<-|[<-|[<-|[<-|[<-|[]]]]]]; vm_compute; first [exact I | lia].
  - reflexivity.
  - vm_compute; lia.
Defined.

Lemma paragraphs_when_no_selector_witness :
  extract_content (paragraphs_page [short_text; "Read more"; short_text])
  = Some (Py.join_nl [short_text; short_text]).
Proof.
  apply (paragraphs_when_no_selector (paragraphs_page [short_text; "Read more"; short_text])).
  - intros s _. right. reflexivity.
  - vm_compute; lia.
Defined.

Lemma body_is_last_resort_witness :
  exists text,
    extract_content (body_page menu_text) = Some text
    /\ (Py.len text < 80 -> text = menu_text).
Proof.
  apply (body_is_last_resort (body_page menu_text) (text_element menu_text)).
  reflexivity.
Defined.

Lemma og_title_comes_first_witness :
  extract_title (titled_page "  Moscow summit ends " "Live updates") title_selectors
                "No title found"
  = "Moscow summit ends".
Proof.
  apply (og_title_comes_first (titled_page "  Moscow summit ends " "Live updates")
           (mkElement (Some "  Moscow summit ends ") "" "" ""));
    reflexivity.
Defined.

Lemma blank_title_replaces_default_witness :
  extract_title blank_heading_page title_selectors "No title found" = "   ".
Proof.
  apply (blank_title_replaces_default blank_heading_page (text_element "   "));
    reflexivity.
Defined.

(** *** Cleaning is idempotent *)

Lemma rstrip_keeps_head (c : ascii) (s : string) :
  Py.is_space c = false -> Py.rstrip (String c s) = String c (Py.rstrip s).
Proof.
  intros Hc. cbn [Py.rstrip]. destruct (Py.rstrip s); [rewrite Hc|]; reflexivity.
Qed.

Lemma lstrip_head (s : string) :
  Py.lstrip s = EmptyString
  \/ exists c s', Py.lstrip s = String c s' /\ Py.is_space c = false.
Proof.
  induction s as [|c s IH]; [left; reflexivity|].
  cbn [Py.lstrip]. destruct (Py.is_space c) eqn:Hc; [exact IH|].
  right. exists c, s. split; [reflexivity | exact Hc].
Qed.

Lemma rstrip_idempotent (s : string) : Py.rstrip (Py.rstrip s) = Py.rstrip s.
Proof.
  induction s as [|c s IH]; [reflexivity|].
  cbn [Py.rstrip]. destruct (Py.rstrip s) as [|d r] eqn:E.
  - destruct (Py.is_space c) eqn:Hc; [reflexivity|].
    cbn [Py.rstrip]. rewrite Hc. reflexivity.
  - cbn [Py.rstrip] in *. rewrite IH. reflexivity.
Qed.

Lemma strip_idempotent (s : string) : Py.strip (Py.strip s) = Py.strip s.
Proof.
  unfold Py.strip. destruct (lstrip_head s) as [E|(c & s' & E & Hc)]; rewrite E.
  - reflexivity.
  - rewrite (rstrip_keeps_head c s' Hc). cbn [Py.lstrip]. rewrite Hc.
    rewrite <- (rstrip_keeps_head c s' Hc). apply rstrip_idempotent.
Qed.

Lemma lstrip_without (p : ascii -> bool) (s : string) :
  Py.existsb_char p s = false -> Py.existsb_char p (Py.lstrip s) = false.
Proof.
  induction s as [|c s IH]; [reflexivity|].
  cbn [Py.lstrip]. destruct (Py.is_space c); [|auto].
  cbn [Py.existsb_char]. intros H. apply orb_false_elim in H as [_ H]. auto.
Qed.

Lemma rstrip_without (p : ascii -> bool) (s : string) :
  Py.existsb_char p s = false -> Py.existsb_char p (Py.rstrip s) = false.
Proof.
  induction s as [|c s IH]; [reflexivity|].
  cbn [Py.existsb_char]. intros H. apply orb_false_elim in H as [Hc H].
  specialize (IH H). cbn [Py.rstrip].
  destruct (Py.rstrip s) as [|d r].
  - destruct (Py.is_space c); [reflexivity|].
    cbn [Py.existsb_char]. rewrite Hc. reflexivity.
  - cbn [Py.existsb_char] in *. rewrite Hc. exact IH.
Qed.

Lemma split_pieces_without (sep : ascii) (s : string) :
  Forall (fun piece => Py.existsb_char (Ascii.eqb sep) piece = false)
         (Py.split sep s).
Proof.
  induction s as [|c s IH]; cbn [Py.split].
  - constructor; [reflexivity | constructor].
  - destruct (Ascii.eqb c sep) eqn:E.
    + constructor; [reflexivity | exact IH].
    + destruct (Py.split sep s) as [|x xs].
      * constructor; [|constructor]. cbn. rewrite Ascii.eqb_sym, E. reflexivity.
      * inversion IH as [|? ? Hx Hxs]; subst.
        constructor; [|exact Hxs].
        cbn. rewrite Ascii.eqb_sym, E. exact Hx.
Qed.

Lemma split_whole (sep : ascii) (s : string) :
  Py.existsb_char (Ascii.eqb sep) s = false -> Py.split sep s = [s].
Proof.
  induction s as [|c s IH]; [reflexivity|].
  cbn [Py.existsb_char Py.split]. intros H. apply orb_false_elim in H as [Hc H].
  rewrite Ascii.eqb_sym, Hc, (IH H). reflexivity.
Qed.

Lemma split_append (sep : ascii) (s rest : string) :
  Py.existsb_char (Ascii.eqb sep) s = false ->
  Py.split sep (s ++ String sep rest)%string = s :: Py.split sep rest.
Proof.
  induction s as [|c s IH]; cbn [String.append Py.existsb_char Py.split].
  - intros _. rewrite Ascii.eqb_refl. reflexivity.
  - intros H. apply orb_false_elim in H as [Hc H].
    rewrite Ascii.eqb_sym, Hc, (IH H). reflexivity.
Qed.

Lemma concat_two (sep x y : string) (l : list string) :
  String.concat sep (x :: y :: l) = (x ++ sep ++ String.concat sep (y :: l))%string.
Proof. reflexivity. Qed.

Lemma split_append_sep (sep : ascii) (s rest : string) :
  Py.existsb_char (Ascii.eqb sep) s = false ->
  Py.split sep (s ++ String sep EmptyString ++ rest)%string = s :: Py.split sep rest.
Proof. exact (split_append sep s rest). Qed.

(** splitting what was joined gives the pieces back *)
Lemma split_join (sep : ascii) (pieces : list string) :
  pieces <> [] ->
  Forall (fun piece => Py.existsb_char (Ascii.eqb sep) piece = false) pieces ->
  Py.split sep (String.concat (String sep EmptyString) pieces) = pieces.
Proof.
  intros Hne H. induction H as [|x l Hx Hl IH]; [contradiction|].
  destruct l as [|y l].
  - apply split_whole, Hx.
  - rewrite concat_two, (split_append_sep sep x _ Hx). f_equal.
    apply IH. discriminate.
Qed.

Lemma filter_all {A : Type} (p : A -> bool) (l : list A) :
  Forall (fun x => p x = true) l -> filter p l = l.
Proof.
  intros H; induction H as [|x l Hx _ IH]; cbn; [reflexivity|].
  rewrite Hx, IH. reflexivity.
Qed.

Lemma map_fixed {A : Type} (f : A -> A) (l : list A) :
  Forall (fun x => f x = x) l -> map f l = l.
Proof.
  intros H; induction H as [|x l Hx _ IH]; cbn; [reflexivity|].
  rewrite Hx, IH. reflexivity.
Qed.

(** the lines that the cleaning keeps: stripped, without a newline, longer
    than 8 characters and not navigation-like *)
Lemma kept_lines (article_content : string) :
  Forall (fun line => Py.strip line = line
                      /\ Py.existsb_char (Ascii.eqb Py.newline) line = false
                      /\ keeps line = true)
         (firstn 200 (filtered_lines article_content)).
Proof.
  apply Forall_firstn_keep. unfold filtered_lines, lines_of.
  apply Forall_forall. intros line Hin.
  apply filter_In in Hin as [Hin Hk].
  apply in_map_iff in Hin as (raw & <- & Hraw).
  apply filter_In in Hraw as [Hraw _].
  split; [apply strip_idempotent|]. split; [|exact Hk].
  unfold Py.strip. apply rstrip_without, lstrip_without.
  pose proof (split_pieces_without Py.newline article_content) as Hall.
  rewrite Forall_forall in Hall. apply Hall, Hraw.
Qed.

Lemma clean_of_kept (kept : list string) :
  Forall (fun line => Py.strip line = line
                      /\ Py.existsb_char (Ascii.eqb Py.newline) line = false
                      /\ keeps line = true) kept ->
  length kept <= 200 ->
  clean_content (Py.join_nl kept) = Py.join_nl kept.
Proof.
  intros Hkept Hlen. destruct kept as [|l ls] eqn:E; [reflexivity|].
  rewrite <- E in *.
  unfold clean_content, filtered_lines, lines_of. unfold Py.join_nl at 2.
  rewrite split_join.
  - f_equal.
    rewrite (filter_all (fun line => Py.truthy (Py.strip line)
                                     && (5 <? Py.len (Py.strip line))) kept).
    + rewrite (map_fixed Py.strip kept).
      * rewrite (filter_all keeps kept).
        -- apply firstn_all2, Hlen.
        -- eapply Forall_impl; [|exact Hkept]. intros line H; apply H.
      * eapply Forall_impl; [|exact Hkept]. intros line H; apply H.
    + eapply Forall_impl; [|exact Hkept].
      intros line (Hs & _ & Hk). rewrite Hs. apply keeps_long_lines, Hk.
  - rewrite E. discriminate.
  - eapply Forall_impl; [|exact Hkept]. intros line H; apply H.
Qed.

(** X11: cleaning an already cleaned content changes nothing. *)
Theorem clean_content_idempotent (article_content : string) :
  clean_content (clean_content article_content) = clean_content article_content.
Proof.
  change (clean_content (Py.join_nl (firstn 200 (filtered_lines article_content)))
          = Py.join_nl (firstn 200 (filtered_lines article_content))).
  apply clean_of_kept; [apply kept_lines | apply firstn_le_length].
Qed.

(** *** The strategies on their own *)

Section Strategies.

Variable W : Type.
Variable env : Env W.

(** X12: a success of the article-extraction library has a content of
    more than 50 characters without surrounding white space, a title that
    is not empty and the method newspaper3k. *)
Theorem library_success_is_substantial (url : string) (st : State W) :
  fr_success (fst (fetch_with_newspaper3k env url st)) = true ->
  exists title_text article_content,
    fst (fetch_with_newspaper3k env url st)
    = mkFetchResult true (Some title_text) (Some article_content) (Some url)
                    (Some "newspaper3k") None None None None None
    /\ 50 < Py.len article_content
    /\ Py.strip article_content = article_content
    /\ 0 < Py.len title_text.
Proof.
  unfold fetch_with_newspaper3k, bind, log, call, ret. cbv beta iota.
  destruct (NEWSPAPER_AVAILABLE env); cbn [negb]; [|discriminate].
  cbn [world trace].
  destruct (article_download_parse env url (world st)) as [[article|] w];
    [|discriminate].
  destruct (Py.truthy (article_text article)); cbn [andb]; [|discriminate].
  destruct (Nat.ltb_spec 50 (Py.len (Py.strip (article_text article))));
    [|discriminate].
  intros _. eexists; eexists. split; [reflexivity|].
  split; [assumption|]. split; [apply strip_idempotent|].
  unfold Py.or_else. destruct (article_title article); cbn; lia.
Qed.

(** X13: without fallbacks a success is one of three: the full extraction
    (method requests, at least 80 characters, no warning), the partial one
    after cleaning (method requests (partial), 50 to 79 characters, with a
    warning), or the partial extraction of a short page (with a warning). *)
Theorem direct_success_methods (url : string) (st : State W) (result : FetchResult) :
  fst (fetch_article_content env url false st) = Some result ->
  fr_success result = true ->
  (fr_method result = Some "requests" /\ 80 <= Py.len (content_of result)
   /\ fr_warning result = None)
  \/ (fr_method result = Some "requests (partial)"
      /\ 50 <= Py.len (content_of result) < 80
      /\ fr_warning result = Some "Content may be incomplete")
  \/ (fr_method result = Some "requests (partial extraction)"
      /\ fr_warning result
         = Some "Content may be incomplete - consider manual paste for full article").
Proof.
  unfold fetch_article_content.
  destruct (session_get env url (world st)) as [outcome w] eqn:Hget.
  rewrite (direct_http_answer W env url false st outcome w Hget).
  destruct outcome as [| |msg|response];
    try (cbn [fst]; intros E; injection E as <-; discriminate).
  unfold handle_response, blocked, bind, ret.
  destruct (status_code response =? 401);
    [cbn [fst]; intros E; injection E as <-; discriminate|].
  destruct (status_code response =? 403);
    [cbn [fst]; intros E; injection E as <-; discriminate|].
  destruct (status_code response =? 404);
    [cbn [fst]; intros E; injection E as <-; discriminate|].
  destruct (raises_for_status (status_code response));
    [cbn [fst]; intros E; injection E as <-; discriminate|].
  unfold extract, bind, ret.
  destruct (lacking (extract_content (soup response)) 80).
  - destruct (at_least (extract_content (soup response)) 50); cbn [fst];
      intros E; injection E as <-; [|discriminate].
    intros _. right; right. split; reflexivity.
  - generalize (clean_content (Py.get (extract_content (soup response)) "")).
    intros cleaned.
    destruct (Nat.leb_spec 80 (Py.len cleaned)).
    + cbn [fst]. intros E; injection E as <-. intros _. left.
      unfold content_of; cbn. unfold Py.len in *. repeat split; lia.
    + destruct (Py.truthy cleaned); cbn [andb]; [|discriminate].
      destruct (Nat.leb_spec 50 (Py.len cleaned)); [|discriminate].
      cbn [fst]. intros E; injection E as <-. intros _. right; left.
      unfold content_of; cbn. unfold Py.len in *. repeat split; lia.
Qed.

(** X14: a feed entry without a link matches every address: if the first
    feed of the site starts with such an entry, the RSS lookup succeeds
    with the title and the summary of that entry, whatever the article. *)
Theorem linkless_entry_matches_any (url base_url : string) (st : State W)
        (entry : Entry) (entries : list Entry) (w : W) :
  urlparse_base env url = Some base_url ->
  feedparser_parse env (base_url ++ "/feed")%string (world st)
  = (Some (entry :: entries), w) ->
  Py.get (e_link entry) "" = "" ->
  fst (try_rss_feed env url st)
  = mkFetchResult true (Some (Py.get (e_title entry) "No title"))
                  (Some (entry_summary entry)) (Some url) (Some "rss_feed")
                  None None None None None.
Proof.
  intros Hbase Hfeed Hlink.
  unfold try_rss_feed, bind, log. cbv beta iota. rewrite Hbase.
  unfold rss_paths. cbn [try_rss_paths]. unfold bind, call. cbn [world trace].
  rewrite Hfeed. cbn [firstn find].
  assert (Hm : entry_matches url entry = true).
  { unfold entry_matches. rewrite Hlink. apply orb_true_intro. right.
    destruct url; reflexivity. }
  rewrite Hm. reflexivity.
Qed.

End Strategies.

Lemma library_success_is_substantial_witness :
  exists title_text article_content,
    fst (fetch_with_newspaper3k Fixtures.env_short_library url start)
    = mkFetchResult true (Some title_text) (Some article_content) (Some url)
                    (Some "newspaper3k") None None None None None
    /\ 50 < Py.len article_content
    /\ Py.strip article_content = article_content
    /\ 0 < Py.len title_text.
Proof.
  apply (library_success_is_substantial unit Fixtures.env_short_library url start).
  reflexivity.
Defined.

Lemma direct_success_methods_witness :
  (fr_method (success_result "No title found" long_text url "requests" None)
   = Some "requests"
   /\ 80 <= Py.len (content_of (success_result "No title found" long_text url
                                               "requests" None))
   /\ fr_warning (success_result "No title found" long_text url "requests" None) = None)
  \/ (fr_method (success_result "No title found" long_text url "requests" None)
      = Some "requests (partial)"
      /\ 50 <= Py.len (content_of (success_result "No title found" long_text url
                                                  "requests" None)) < 80
      /\ fr_warning (success_result "No title found" long_text url "requests" None)
         = Some "Content may be incomplete")
  \/ (fr_method (success_result "No title found" long_text url "requests" None)
      = Some "requests (partial extraction)"
      /\ fr_warning (success_result "No title found" long_text url "requests" None)
         = Some "Content may be incomplete - consider manual paste for full article").
Proof.
  apply (direct_success_methods unit Fixtures.env_article url start);
    [vm_compute; reflexivity | reflexivity].
Defined.

Lemma linkless_entry_matches_any_witness :
  fst (try_rss_feed env_linkless_feed url start)
  = mkFetchResult true (Some "Weather warning")
                  (Some "Storms are expected on Friday.") (Some url) (Some "rss_feed")
                  None None None None None.
Proof.
  apply (linkless_entry_matches_any unit env_linkless_feed url site start
           linkless_entry [] tt);
    reflexivity.
Defined.

(** *** More on the related-article finder *)

Lemma In_firstn_in {A : Type} (n : nat) (l : list A) (x : A) :
  In x (firstn n l) -> In x l.
Proof.
  revert l; induction n as [|n IH]; intros [|y l]; cbn; try tauto.
  intros [H|H]; [left; exact H | right; apply IH, H].
Qed.

Lemma NoDup_firstn_keep {A : Type} (n : nat) (l : list A) :
  NoDup l -> NoDup (firstn n l).
Proof.
  intros H; revert n; induction H as [|x l Hx H IH]; intros [|n]; cbn;
    try constructor.
  - intros Hin. apply Hx. eapply In_firstn_in, Hin.
  - apply IH.
Qed.

Lemma length_slice_to {A : Type} (k : Z) (l : list A) :
  (0 <= k)%Z -> (Z.of_nat (length (Py.slice_to k l)) <= k)%Z.
Proof.
  intros Hk. unfold Py.slice_to.
  destruct (Z.leb_spec 0 k); [|lia].
  pose proof (firstn_le_length (Z.to_nat k) l). lia.
Qed.

Lemma Sorted_firstn {A : Type} (R : A -> A -> Prop) (n : nat) (l : list A) :
  Sorted R l -> Sorted R (firstn n l).
Proof.
  intros H; revert n; induction H as [|x l H IH Hd]; intros [|n]; cbn;
    try constructor.
  - apply IH.
  - destruct Hd as [|y l' Hy]; destruct n; cbn; constructor. exact Hy.
Qed.

Lemma insert_by_score_sorted (x : RelatedCandidate) (l : list RelatedCandidate) :
  by_descending_score l -> by_descending_score (insert_by_score x l).
Proof.
  unfold by_descending_score.
  intros H; induction H as [|y l H IH Hd]; cbn [insert_by_score].
  - constructor; constructor.
  - destruct (Z.ltb_spec (rc_relevance_score x) (rc_relevance_score y)).
    + constructor; [exact IH|].
      destruct Hd as [|z l' Hz]; cbn [insert_by_score].
      * constructor. lia.
      * destruct (rc_relevance_score x <? rc_relevance_score z)%Z;
          constructor; [exact Hz | lia].
    + constructor; [constructor; assumption | constructor; lia].
Qed.

Lemma sort_by_score_sorted (l : list RelatedCandidate) :
  by_descending_score (sort_by_score l).
Proof.
  induction l as [|x l IH]; cbn; [constructor | apply insert_by_score_sorted, IH].
Qed.

Section Finder.

Variable W : Type.
Variable env : Env W.

(** X15: the finder returns at most [max_articles] candidates, for any
    [max_articles] that is not negative. *)
Theorem related_at_most_max (url current_title current_content : string)
        (max_articles : Z) (st : State W) :
  (0 <= max_articles)%Z ->
  (Z.of_nat (length (fst (find_related_articles env url current_title current_content
                                                max_articles st)))
   <= max_articles)%Z.
Proof.
  intros Hmax. unfold find_related_articles.
  destruct (urlparse_base env url) as [base_url|]; [|cbn; lia].
  unfold bind, ret.
  destruct (scan_feeds env base_url url current_content
                       (keywords_of env current_title current_content)
                       max_articles rss_paths [] st) as [related st1].
  destruct (scan_page env base_url url
                      (keywords_of env current_title current_content)
                      max_articles related st1) as [related' st2].
  cbn [fst]. apply length_slice_to, Hmax.
Qed.

(** X16: the candidates are returned in descending order of relevance
    score, whatever the order in which the two sources found them. *)
Theorem related_by_descending_score (url current_title current_content : string)
        (max_articles : Z) (st : State W) :
  by_descending_score
    (fst (find_related_articles env url current_title current_content
                                max_articles st)).
Proof.
  unfold find_related_articles.
  destruct (urlparse_base env url) as [base_url|]; [|constructor].
  unfold bind, ret.
  destruct (scan_feeds env base_url url current_content
                       (keywords_of env current_title current_content)
                       max_articles rss_paths [] st) as [related st1].
  destruct (scan_page env base_url url
                      (keywords_of env current_title current_content)
                      max_articles related st1) as [related' st2].
  cbn [fst]. unfold Py.slice_to.
  destruct (0 <=? max_articles)%Z; apply Sorted_firstn, sort_by_score_sorted.
Qed.

Lemma scan_entries_placed (base_url url current_content : string)
      (keywords : list string) (max_articles : Z) (entries : list Entry) :
  forall related_articles,
    Forall (placed base_url) related_articles ->
    Forall (placed base_url)
           (scan_entries url current_content keywords max_articles entries
                         related_articles).
Proof.
  induction entries as [|entry entries IH]; intros related H; [exact H|].
  cbn [scan_entries].
  destruct (String.eqb (Py.get (e_link entry) "") url
            || Py.str_in url (Py.get (e_link entry) "")); [apply IH, H|].
  match goal with |- context [(2 <=? ?score)%Z] => destruct (2 <=? score)%Z end;
    [|apply IH, H].
  match goal with |- context [full max_articles ?l] =>
    assert (Hl : Forall (placed base_url) l) end.
  { apply Forall_app; split; [exact H|].
    constructor; [|constructor]. unfold placed; cbn. discriminate. }
  match goal with |- context [full max_articles ?l] =>
    destruct (full max_articles l) end; [exact Hl | apply IH, Hl].
Qed.

Lemma scan_feeds_placed (base_url url current_content : string)
      (keywords : list string) (max_articles : Z) (paths : list string) :
  forall related_articles st,
    Forall (placed base_url) related_articles ->
    Forall (placed base_url)
           (fst (scan_feeds env base_url url current_content keywords max_articles
                            paths related_articles st)).
Proof.
  induction paths as [|path paths IH]; intros related st H; [exact H|].
  cbn [scan_feeds]. unfold bind, call.
  destruct (feedparser_parse env (base_url ++ path)%string (world st))
    as [[entries|] w]; [|apply IH, H].
  pose proof (scan_entries_placed base_url url current_content keywords max_articles
                (firstn 20 entries) related H) as H'.
  destruct (full max_articles
              (scan_entries url current_content keywords max_articles
                            (firstn 20 entries) related));
    [exact H' | apply IH, H'].
Qed.

Lemma scan_links_placed (base_url url : string) (keywords : list string)
      (max_articles : Z) (links : list Anchor) :
  forall related_articles,
    Forall (placed base_url) related_articles ->
    Forall (placed base_url)
           (fst (scan_links env base_url url keywords max_articles links
                            related_articles)).
Proof.
  induction links as [|link links IH]; intros related H; [exact H|].
  cbn [scan_links].
  destruct (Py.truthy (Py.get (a_href link) "")); [|apply IH, H].
  destruct (if negb (Py.startswith (Py.get (a_href link) "") "http")
            then urljoin env base_url (Py.get (a_href link) "")
            else Some (Py.get (a_href link) "")) as [href|]; [|exact H].
  destruct (negb (String.eqb href url)); cbn [andb]; [|apply IH, H].
  destruct (Py.str_in base_url href) eqn:Hsite; [|apply IH, H].
  destruct (Py.truthy (a_text link)); cbn [andb]; [|apply IH, H].
  destruct (Nat.ltb_spec 10 (Py.len (a_text link))) as [Hlong|_]; [|apply IH, H].
  match goal with |- context [(1 <=? ?score)%Z] => destruct (1 <=? score)%Z end;
    [|apply IH, H].
  match goal with |- context [full max_articles ?l] =>
    assert (Hl : Forall (placed base_url) l) end.
  { apply Forall_app; split; [exact H|].
    constructor; [|constructor]. unfold placed; cbn. auto. }
  match goal with |- context [full max_articles ?l] =>
    destruct (full max_articles l) end; [exact Hl | apply IH, Hl].
Qed.

Lemma scan_selectors_placed (page : Soup) (base_url url : string)
      (keywords : list string) (max_articles : Z) (selectors : list string) :
  forall related_articles,
    Forall (placed base_url) related_articles ->
    Forall (placed base_url)
           (scan_selectors env page base_url url keywords max_articles selectors
                           related_articles).
Proof.
  induction selectors as [|selector selectors IH]; intros related H; [exact H|].
  cbn [scan_selectors].
  pose proof (scan_links_placed base_url url keywords max_articles
                (firstn 10 (soup_select page selector)) related H) as H'.
  destruct (scan_links env base_url url keywords max_articles
                       (firstn 10 (soup_select page selector)) related)
    as [related' [|]]; cbn [fst] in H'; [|exact H'].
  destruct (full max_articles related'); [exact H' | apply IH, H'].
Qed.

(** X17: the in-page candidates stay on the site: the address of each
    contains the scheme and host of the article; each has a title of more
    than 10 characters, an empty summary and no publication date, while
    each feed candidate has a publication date. *)
Theorem related_are_placed (url base_url current_title current_content : string)
        (max_articles : Z) (st : State W) :
  urlparse_base env url = Some base_url ->
  Forall (placed base_url)
         (fst (find_related_articles env url current_title current_content
                                     max_articles st)).
Proof.
  intros Hbase. unfold find_related_articles. rewrite Hbase. unfold bind, ret.
  pose proof (scan_feeds_placed base_url url current_content
                (keywords_of env current_title current_content) max_articles
                rss_paths [] st (Forall_nil _)) as H1.
  destruct (scan_feeds env base_url url current_content
                       (keywords_of env current_title current_content)
                       max_articles rss_paths [] st) as [related st1].
  cbn [fst] in H1. unfold scan_page, bind, call, ret.
  destruct (requests_get env url (world st1)) as [[response|] w]; cbn [fst].
  - destruct (status_code response =? 200); cbn [fst];
      apply Forall_slice_to, sort_by_score_keeps;
      [apply scan_selectors_placed|]; exact H1.
  - apply Forall_slice_to, sort_by_score_keeps, H1.
Qed.

(** X18: there are at most 10 keywords, all different; each is a word of
    at least 4 characters of the lowercased title, or a word of at least 5
    characters of the first 500 characters of the lowercased content. *)
Theorem keywords_are_few_long_words (current_title current_content : string) :
  length (keywords_of env current_title current_content) <= 10
  /\ NoDup (keywords_of env current_title current_content)
  /\ Forall (fun keyword =>
               4 <= Py.len keyword
               /\ (In keyword (Py.findall_words 4 (Py.lower current_title))
                   \/ In keyword (Py.findall_words 5
                                    (Py.take 500 (Py.lower current_content)))))
            (keywords_of env current_title current_content).
Proof.
  unfold keywords_of.
  set (words := Py.union (Py.set_of (Py.findall_words 4 (Py.lower current_title)))
                         (Py.set_of (Py.findall_words 5
                                       (Py.take 500 (Py.lower current_content))))).
  pose proof (Py.list_of_set_perm (set_order env) words) as Hperm.
  split; [apply firstn_le_length|]. split.
  - apply NoDup_firstn_keep.
    eapply Permutation_NoDup; [apply Permutation_sym, Hperm|].
    apply NoDup_nodup.
  - apply Forall_forall. intros keyword Hin.
    apply In_firstn_in in Hin.
    apply (Permutation_in _ Hperm) in Hin.
    unfold Py.set_of in Hin. apply nodup_In in Hin.
    unfold words, Py.union in Hin. apply in_app_or in Hin.
    unfold Py.set_of in Hin. rewrite !nodup_In in Hin.
    split; [|exact Hin].
    destruct Hin as [Hin|Hin]; unfold Py.findall_words in Hin;
      apply filter_In in Hin as [_ Hlen]; apply Nat.leb_le in Hlen; lia.
Qed.

End Finder.

Lemma related_at_most_max_witness :
  (Z.of_nat (length (fst (find_related_articles env_site url "Moscow summit"
                                                "Talks in Russia" 2 start)))
   <= 2)%Z.
Proof.
  apply (related_at_most_max unit env_site url "Moscow summit" "Talks in Russia" 2 start).
  lia.
Defined.

Lemma related_are_placed_witness :
  Forall (placed site)
         (fst (find_related_articles env_site url "Moscow summit" "Talks in Russia"
                                     5 start)).
Proof.
  apply (related_are_placed unit env_site url site "Moscow summit" "Talks in Russia"
           5 start).
  reflexivity.
Defined.

(** the finder on that site: the feed entries first by score, then the link *)
Example related_on_site :
  map (fun c => (rc_url c, rc_relevance_score c, rc_source c))
      (fst (find_related_articles env_site url "Moscow summit" "Talks in Russia"
                                  5 start))
  = [("https://news.example/world/markets", 5%Z, rss_feed);
     ("https://news.example/world/kremlin", 2%Z, rss_feed);
     ("https://news.example/world/kremlin-statement", 1%Z, page_links)].
Proof. vm_compute. reflexivity. Qed.

(** *** More on the comparator *)

Lemma len_take_min (n : nat) (s : string) :
  Py.len (Py.take n s) = Nat.min n (Py.len s).
Proof.
  unfold Py.len. revert s.
  induction n as [|n IH]; intros [|c s]; cbn; try reflexivity.
  rewrite IH. reflexivity.
Qed.

Lemma take_without (p : ascii -> bool) (n : nat) (s : string) :
  Py.existsb_char p s = false -> Py.existsb_char p (Py.take n s) = false.
Proof.
  revert s; induction n as [|n IH]; intros [|c s]; cbn; try reflexivity.
  intros H. apply orb_false_elim in H as [Hc H]. rewrite Hc. apply IH, H.
Qed.

Lemma sentences_of_long (text : string) :
  Forall (fun s => 50 < Py.len s /\ Py.existsb_char (Ascii.eqb ".") s = false)
         (sentences_of text).
Proof.
  unfold sentences_of. apply Forall_forall. intros s Hin.
  apply in_map_iff in Hin as (raw & <- & Hraw).
  apply filter_In in Hraw as [Hraw Hlen]. apply Nat.ltb_lt in Hlen.
  split; [exact Hlen|].
  unfold Py.strip. apply rstrip_without, lstrip_without.
  pose proof (split_pieces_without "." text) as Hall.
  rewrite Forall_forall in Hall. apply Hall, Hraw.
Qed.

Lemma scan_sentences_reported (current_sentences related_sentences : list string) :
  Forall (fun s => 50 < Py.len s /\ Py.existsb_char (Ascii.eqb ".") s = false)
         related_sentences ->
  forall unique_info,
    Forall reported_sentence unique_info ->
    Forall reported_sentence
           (scan_sentences current_sentences related_sentences unique_info).
Proof.
  intros H; induction H as [|rel_sent rest [Hlen Hdot] _ IH]; intros unique_info Hu;
    cbn [scan_sentences]; [exact Hu|].
  destruct (negb (existsb (fun curr_sent => Py.str_in (Py.take 50 rel_sent) curr_sent)
                          current_sentences)
            && existsb (fun kw => Py.str_in kw rel_sent) substantive);
    [|apply IH, Hu].
  assert (Hnew : Forall reported_sentence (unique_info ++ [Py.take 150 rel_sent])).
  { apply Forall_app; split; [exact Hu|]. constructor; [|constructor].
    split; [rewrite len_take_min; lia | apply take_without, Hdot]. }
  destruct (3 <=? length (unique_info ++ [Py.take 150 rel_sent]));
    [exact Hnew | apply IH, Hnew].
Qed.

Lemma mem_In (x : string) (s : list string) : Py.mem x s = true <-> In x s.
Proof. unfold Py.mem. destruct (in_dec string_dec x s); split; auto; discriminate. Qed.

Lemma mem_not_In (x : string) (s : list string) : Py.mem x s = false <-> ~ In x s.
Proof.
  unfold Py.mem. destruct (in_dec string_dec x s); split; auto;
    [discriminate | contradiction].
Qed.

Lemma NoDup_filter_keep {A : Type} (p : A -> bool) (l : list A) :
  NoDup l -> NoDup (filter p l).
Proof.
  intros H; induction H as [|x l Hx H IH]; cbn; [constructor|].
  destruct (p x); [|exact IH].
  constructor; [|exact IH]. intros Hin. apply Hx. apply filter_In in Hin. apply Hin.
Qed.

Section Comparisons.

Variable W : Type.
Variable env : Env W.

(** the first five elements of a set, in the order of the environment *)
Lemma enumerated (s : list string) (P : string -> Prop) :
  (forall x, In x s -> P x) ->
  Forall P (firstn 5 (Py.list_of_set (set_order env) s))
  /\ NoDup (firstn 5 (Py.list_of_set (set_order env) s)).
Proof.
  intros H. pose proof (Py.list_of_set_perm (set_order env) s) as Hperm. split.
  - apply Forall_forall. intros x Hin. apply In_firstn_in in Hin.
    apply (Permutation_in _ Hperm) in Hin.
    unfold Py.set_of in Hin. apply nodup_In in Hin. auto.
  - apply NoDup_firstn_keep.
    eapply Permutation_NoDup; [apply Permutation_sym, Hperm | apply NoDup_nodup].
Qed.

Lemma analyze_one_state (current_content : string) (article : RelatedCandidate)
      (st : State W) :
  snd (analyze_one env current_content article st)
  = snd (fetch_article_content env (rc_url article) false st).
Proof.
  unfold analyze_one, bind, ret.
  destruct (fetch_article_content env (rc_url article) false st) as [[fetched|] st1];
    [destruct (fr_success fetched)|]; reflexivity.
Qed.

Lemma analyze_each_trace (current_content : string)
      (related_articles : list RelatedCandidate) :
  forall st,
    trace (snd (analyze_each env current_content related_articles st))
    = trace st ++ map (fun article => (DirectHttp, rc_url article)) related_articles.
Proof.
  induction related_articles as [|article rest IH]; intros st; cbn [analyze_each map].
  - cbn. rewrite app_nil_r. reflexivity.
  - unfold bind, ret.
    pose proof (analyze_one_state current_content article st) as H1.
    destruct (analyze_one env current_content article st) as [a st1].
    cbn [snd] in H1.
    specialize (IH st1).
    destruct (analyze_each env current_content rest st1) as [analyses st2].
    cbn [snd] in *. rewrite IH, H1.
    unfold fetch_article_content. rewrite direct_http_alone. cbn [trace].
    rewrite <- app_assoc. reflexivity.
Qed.

(** X19: the comparator makes one direct request per candidate, in the
    order of the candidates, and invokes no other strategy. *)
Theorem comparator_requests (current_article : FetchResult)
        (related_articles : list RelatedCandidate) (st : State W) :
  trace (snd (analyze_related_articles env current_article related_articles st))
  = trace st ++ map (fun article => (DirectHttp, rc_url article)) related_articles.
Proof.
  unfold analyze_related_articles.
  destruct related_articles as [|article rest].
  - cbn. rewrite app_nil_r. reflexivity.
  - unfold bind, ret.
    pose proof (analyze_each_trace (Py.lower (content_of current_article))
                  (article :: rest) st) as H.
    destruct (analyze_each env (Py.lower (content_of current_article))
                           (article :: rest) st) as [analyses st1].
    exact H.
Qed.

Lemma analyze_one_details (current_content : string) (article : RelatedCandidate)
      (st : State W) :
  consistent (fst (analyze_one env current_content article st))
  /\ topical (topics_of current_content) (topics_of (Py.lower (rc_summary article)))
             (fst (analyze_one env current_content article st))
  /\ match information_in_related_not_in_current
             (aa_comparison (fst (analyze_one env current_content article st))) with
     | Some unique_info => Forall reported_sentence unique_info
     | None => True
     end
  /\ aa_full_content_available (fst (analyze_one env current_content article st))
     = match fst (fetch_article_content env (rc_url article) false st) with
       | Some fetched => fr_success fetched
       | None => false
       end.
Proof.
  set (current := topics_of current_content).
  set (related := topics_of (Py.lower (rc_summary article))).
  assert (Hnd : forall text, NoDup (topics_of text))
    by (intros text; apply NoDup_nodup).
  destruct (enumerated (Py.intersection current related)
              (fun t => In t current /\ In t related)) as [C1 C2].
  { intros x Hx. apply filter_In in Hx as [Hx Hm]. apply mem_In in Hm. auto. }
  destruct (enumerated (Py.difference related current)
              (fun t => In t related /\ ~ In t current)) as [R1 R2].
  { intros x Hx. apply filter_In in Hx as [Hx Hm].
    apply negb_true_iff, mem_not_In in Hm. auto. }
  destruct (enumerated (Py.difference current related)
              (fun t => In t current /\ ~ In t related)) as [U1 U2].
  { intros x Hx. apply filter_In in Hx as [Hx Hm].
    apply negb_true_iff, mem_not_In in Hm. auto. }
  unfold analyze_one, bind, ret. fold current. fold related.
  destruct (fetch_article_content env (rc_url article) false st) as [[fetched|] st1];
    [destruct (fr_success fetched) eqn:Hs|]; cbn [fst];
    (split; [unfold consistent | split; [unfold topical | split]];
     cbn [aa_comparison common_topics topics_in_related_not_in_current
          topics_in_current_not_in_related information_in_related_not_in_current
          aa_full_content_available aa_content_length];
     try solve [ auto | congruence | repeat split; assumption
               | eexists; eexists; split; reflexivity ]).
  apply scan_sentences_reported; [|constructor].
  apply Forall_firstn_keep, sentences_of_long.
Qed.

Lemma analyze_each_details (current_content : string)
      (related_articles : list RelatedCandidate) :
  forall st,
    Forall consistent (fst (analyze_each env current_content related_articles st))
    /\ Forall2 (fun article a =>
                  topical (topics_of current_content)
                          (topics_of (Py.lower (rc_summary article))) a)
               related_articles
               (fst (analyze_each env current_content related_articles st))
    /\ Forall (fun a =>
                 match information_in_related_not_in_current (aa_comparison a) with
                 | Some unique_info => Forall reported_sentence unique_info
                 | None => True
                 end)
              (fst (analyze_each env current_content related_articles st)).
Proof.
  induction related_articles as [|article rest IH]; intros st; cbn [analyze_each].
  - repeat split; constructor.
  - unfold bind, ret.
    destruct (analyze_one_details current_content article st) as (H1 & H2 & H3 & _).
    destruct (analyze_one env current_content article st) as [a st1].
    destruct (IH st1) as (I1 & I2 & I3).
    destruct (analyze_each env current_content rest st1) as [analyses st2].
    cbn [fst] in *. repeat split; constructor; assumption.
Qed.

(** X20: in every entry the sentence comparison and the content length
    are present exactly when [full_content_available] is true. *)
Theorem entries_are_consistent (current_article : FetchResult)
        (related_articles : list RelatedCandidate) (st : State W)
        (analyses : list ArticleAnalysis) :
  articles (fst (analyze_related_articles env current_article related_articles st))
  = Some analyses ->
  Forall consistent analyses.
Proof.
  unfold analyze_related_articles.
  destruct related_articles as [|article rest]; [discriminate|].
  unfold bind, ret.
  destruct (analyze_each_details (Py.lower (content_of current_article))
              (article :: rest) st) as (H & _).
  destruct (analyze_each env (Py.lower (content_of current_article))
                         (article :: rest) st) as [found st1].
  cbn [fst articles] in *. intros E; injection E as <-. exact H.
Qed.

(** X21: the topic lists of an entry are what their names say: a common
    topic is a topic of the current article and of the summary of the
    candidate; a topic only in one is a topic of that one and not of the
    other; no list holds a topic twice. *)
Theorem topics_are_classified (current_article : FetchResult)
        (related_articles : list RelatedCandidate) (st : State W)
        (analyses : list ArticleAnalysis) :
  articles (fst (analyze_related_articles env current_article related_articles st))
  = Some analyses ->
  Forall2 (fun article a =>
             topical (topics_of (Py.lower (content_of current_article)))
                     (topics_of (Py.lower (rc_summary article))) a)
          related_articles analyses.
Proof.
  unfold analyze_related_articles.
  destruct related_articles as [|article rest]; [discriminate|].
  unfold bind, ret.
  destruct (analyze_each_details (Py.lower (content_of current_article))
              (article :: rest) st) as (_ & H & _).
  destruct (analyze_each env (Py.lower (content_of current_article))
                         (article :: rest) st) as [found st1].
  cbn [fst articles] in *. intros E; injection E as <-. exact H.
Qed.

(** X22: every sentence reported as unique to a related article has 51 to
    150 characters and no period. *)
Theorem unique_sentences_are_reported (current_article : FetchResult)
        (related_articles : list RelatedCandidate) (st : State W)
        (analyses : list ArticleAnalysis) :
  articles (fst (analyze_related_articles env current_article related_articles st))
  = Some analyses ->
  Forall (fun a =>
            match information_in_related_not_in_current (aa_comparison a) with
            | Some unique_info => Forall reported_sentence unique_info
            | None => True
            end)
         analyses.
Proof.
  unfold analyze_related_articles.
  destruct related_articles as [|article rest]; [discriminate|].
  unfold bind, ret.
  destruct (analyze_each_details (Py.lower (content_of current_article))
              (article :: rest) st) as (_ & _ & H).
  destruct (analyze_each env (Py.lower (content_of current_article))
                         (article :: rest) st) as [found st1].
  cbn [fst articles] in *. intros E; injection E as <-. exact H.
Qed.

End Comparisons.

Lemma entries_are_consistent_witness :
  Forall consistent
         (fst (analyze_each Fixtures.env_article (Py.lower (content_of Fixtures.current))
                            [Fixtures.candidate] start)).
Proof.
  apply (entries_are_consistent unit Fixtures.env_article Fixtures.current
           [Fixtures.candidate] start).
  reflexivity.
Defined.

Lemma topics_are_classified_witness :
  Forall2 (fun article a =>
             topical (topics_of (Py.lower (content_of Fixtures.current)))
                     (topics_of (Py.lower (rc_summary article))) a)
          [Fixtures.candidate]
          (fst (analyze_each Fixtures.env_article (Py.lower (content_of Fixtures.current))
                             [Fixtures.candidate] start)).
Proof.
  apply (topics_are_classified unit Fixtures.env_article Fixtures.current
           [Fixtures.candidate] start).
  reflexivity.
Defined.

Lemma unique_sentences_are_reported_witness :
  Forall (fun a =>
            match information_in_related_not_in_current (aa_comparison a) with
            | Some unique_info => Forall reported_sentence unique_info
            | None => True
            end)
         (fst (analyze_each env_report (Py.lower (content_of Fixtures.current))
                            [Fixtures.candidate] start)).
Proof.
  apply (unique_sentences_are_reported unit env_report Fixtures.current
           [Fixtures.candidate] start).
  reflexivity.
Defined.

(** the one sentence of that report that the current article does not have *)
Example report_sentence :
  map (fun a => information_in_related_not_in_current (aa_comparison a))
      (fst (analyze_each env_report (Py.lower (content_of Fixtures.current))
                         [Fixtures.candidate] start))
  = [Some ["the government announced a new security policy for the border regions on tuesday, officials said"]].
Proof. vm_compute. reflexivity. Qed.

(** *** The refinement of the category *)

Section Refinement.

Import Refine.

Variable analysis : Analysis.
Variable article_data : FetchResult.

Let fa_score := Py.get (factual_accuracy analysis) 0%Z.
Let sc_score := Py.get (source_credibility analysis) 0%Z.
Let bl_score := Py.get (bias_level analysis) 0%Z.
Let pi_score := Py.get (propaganda_indicators analysis) 0%Z.
Let overall := Py.get (overall_score analysis) 0%Z.

Ltac compare_scores :=
  repeat (cbn [andb orb];
          match goal with
          | |- context [(?a <? ?b)%Z] =>
              destruct (Z.ltb_spec a b); try (exfalso; lia)
          | |- context [(?a <=? ?b)%Z] =>
              destruct (Z.leb_spec a b); try (exfalso; lia)
          end);
  cbn [andb orb].

Lemma refined_category_cases (fa sc bl pi ov : Z) (keywords : list string)
      (current : string) :
  (untouched fa sc ov /\ refined_category fa sc bl pi ov keywords current = current)
  \/ (~ untouched fa sc ov
      /\ exists before after bare,
          In (before, after, bare) labels
          /\ refined_category fa sc bl pi ov keywords current
             = label keywords before after bare).
Proof.
  unfold refined_category, untouched, labels. compare_scores;
    try (left; split; [lia | reflexivity]);
    right; (split; [lia|]); do 3 eexists; (split; [|reflexivity]); cbn; tauto.
Qed.

(** X23: the category of the analysis is left as it is exactly when the
    overall score is at least 60 while the factual accuracy is below 15
    and the source credibility at least 10; with any other scores it is
    replaced by one of the eight labels, built around the first keyword. *)
Theorem category_kept_or_relabelled :
  (untouched fa_score sc_score overall
   /\ category (refine_category_based_on_scores analysis article_data)
      = Some (Py.get (category analysis) "UNKNOWN"))
  \/ (~ untouched fa_score sc_score overall
      /\ exists before after bare keywords,
          In (before, after, bare) labels
          /\ category_keywords (refine_category_based_on_scores analysis article_data)
             = Some keywords
          /\ category (refine_category_based_on_scores analysis article_data)
             = Some (label keywords before after bare)).
Proof.
  unfold refine_category_based_on_scores. cbn [category category_keywords].
  fold fa_score sc_score bl_score pi_score overall.
  destruct (refined_category_cases fa_score sc_score bl_score pi_score overall
              (Py.get (category_keywords analysis) (firstn 3 (key_terms article_data)))
              (Py.get (category analysis) "UNKNOWN"))
    as [[Hu E]|[Hu (before & after & bare & Hin & E)]].
  - left. split; [exact Hu | rewrite E; reflexivity].
  - right. split; [exact Hu|].
    exists before, after, bare. eexists. split; [exact Hin|].
    split; [reflexivity | rewrite E; reflexivity].
Qed.

Lemma refined_category_settled (fa sc bl pi ov : Z) (keywords : list string)
      (current : string) :
  refined_category fa sc bl pi ov keywords
                   (refined_category fa sc bl pi ov keywords current)
  = refined_category fa sc bl pi ov keywords current.
Proof. unfold refined_category. compare_scores; reflexivity. Qed.

(** X24: refining twice is refining once: the keywords and the reasoning
    that the first pass wrote are kept by the second, and the same tests
    give the same category. *)
Theorem refinement_is_idempotent :
  refine_category_based_on_scores
    (refine_category_based_on_scores analysis article_data) article_data
  = refine_category_based_on_scores analysis article_data.
Proof.
  unfold refine_category_based_on_scores.
  cbn [factual_accuracy source_credibility bias_level propaganda_indicators
       india_relevance overall_score category category_keywords category_reasoning
       Py.get].
  fold fa_score sc_score bl_score pi_score overall.
  rewrite refined_category_settled. f_equal. f_equal.
  destruct (Py.truthy (Py.get (category_reasoning analysis) "")) eqn:E.
  - rewrite E. reflexivity.
  - reflexivity.
Qed.

(** X25: an analysis with a factual accuracy below 15 is never relabelled
    as factual: whenever the category is replaced, the new one does not
    start with Factual or with Likely Factual, and is not FACTUAL NEWS. *)
Theorem low_accuracy_is_never_factual (new_category : string) :
  (fa_score < 15)%Z ->
  ~ untouched fa_score sc_score overall ->
  category (refine_category_based_on_scores analysis article_data)
  = Some new_category ->
  Py.startswith new_category "Factual" = false
  /\ Py.startswith new_category "Likely Factual" = false
  /\ new_category <> "FACTUAL NEWS".
Proof.
  intros Hfa Hu. unfold refine_category_based_on_scores.
  set (keywords := Py.get (category_keywords analysis)
                          (firstn 3 (key_terms article_data))).
  set (current := Py.get (category analysis) "UNKNOWN").
  clearbody keywords current. cbn [category].
  fold fa_score sc_score bl_score pi_score overall.
  intros E. apply (f_equal (fun o => Py.get o "")) in E. cbn [Py.get] in E.
  subst new_category.
  unfold untouched in Hu. unfold refined_category.
  compare_scores; try (exfalso; lia);
    destruct keywords as [|first rest]; cbn;
    repeat split; discriminate.
Qed.

(** X26: the analysis always leaves with a reasoning that is not empty: its
    own when it had one, and otherwise a sentence that starts with
    Category determined by. *)
Theorem reasoning_is_never_empty :
  exists reasoning,
    category_reasoning (refine_category_based_on_scores analysis article_data)
    = Some reasoning
    /\ 0 < Py.len reasoning
    /\ (if Py.truthy (Py.get (category_reasoning analysis) "")
        then reasoning = Py.get (category_reasoning analysis) ""
        else Py.startswith reasoning "Category determined by: " = true).
Proof.
  unfold refine_category_based_on_scores. cbn [category_reasoning].
  eexists. split; [reflexivity|].
  destruct (Py.get (category_reasoning analysis) "") as [|c r]; cbn [Py.truthy].
  - unfold default_reasoning.
    match goal with |- context [(_ ++ ?x)%string] => generalize x end.
    intros listed. split; [cbn; lia | cbn; destruct listed; reflexivity].
  - split; [cbn; lia | reflexivity].
Qed.


End Refinement.

Lemma low_accuracy_is_never_factual_witness :
  Py.startswith "Propaganda - Policy Content" "Factual" = false
  /\ Py.startswith "Propaganda - Policy Content" "Likely Factual" = false
  /\ "Propaganda - Policy Content" <> "FACTUAL NEWS".
Proof.
  apply (low_accuracy_is_never_factual
           (mkAnalysis (Some 10%Z) (Some 5%Z) (Some 5%Z) (Some 5%Z) None (Some 30%Z)
                       (Some "FACTUAL NEWS") None None)
           Fixtures.current "Propaganda - Policy Content").
  - cbn; lia.
  - unfold Refine.untouched; cbn; lia.
  - vm_compute; reflexivity.
Defined.

(** *** The browser strategies *)

Section BrowserStrategies.

Variable W : Type.
Variable browsers : Browsers W.

Lemma browser_result_success (name title_text url : string)
      (extracted : option (option string)) :
  fr_success (browser_result browsers name title_text url extracted) = true ->
  exists article_content,
    browser_result browsers name title_text url extracted
    = mkFetchResult true (Some title_text) (Some article_content) (Some url)
                    (Some name) None None None None None
    /\ 100 < Py.len article_content <= 5000.
Proof.
  unfold browser_result.
  destruct extracted as [[text|]|]; try discriminate; cbn [longer_than].
  destruct (Py.truthy text); cbn [andb]; [|discriminate].
  destruct (Nat.ltb_spec 100 (Py.len text)); [|discriminate].
  intros _. eexists. split; [reflexivity|].
  cbn [Py.get]. rewrite len_take_min. lia.
Qed.

(** X28: a success of either browser strategy has a content of 101 to
    5000 characters, carries the address and names its method. *)
Theorem browser_success_is_bounded (url : string) (st : State W) :
  (fr_success (fst (fetch_with_selenium browsers url st)) = true ->
   exists title_text article_content,
     fst (fetch_with_selenium browsers url st)
     = mkFetchResult true (Some title_text) (Some article_content) (Some url)
                     (Some "selenium") None None None None None
     /\ 100 < Py.len article_content <= 5000)
  /\ (fr_success (fst (fetch_with_playwright browsers url st)) = true ->
      exists title_text article_content,
        fst (fetch_with_playwright browsers url st)
        = mkFetchResult true (Some title_text) (Some article_content) (Some url)
                        (Some "playwright") None None None None None
        /\ 100 < Py.len article_content <= 5000).
Proof.
  split.
  - unfold fetch_with_selenium, bind, log, call, ret. cbv beta iota.
    destruct (SELENIUM_AVAILABLE browsers); cbn [negb]; [|discriminate].
    cbn [world trace].
    destruct (selenium_page browsers url (world st)) as [[msg|[title page]] w];
      [discriminate|].
    cbn [fst]. intros H. eexists.
    apply (browser_result_success _ _ _ _ H).
  - unfold fetch_with_playwright, bind, log, call, ret. cbv beta iota.
    destruct (PLAYWRIGHT_AVAILABLE browsers); cbn [negb]; [|discriminate].
    cbn [world trace].
    destruct (playwright_page browsers url (world st)) as [[msg|[title page]] w];
      [discriminate|].
    cbn [fst]. intros H. eexists.
    apply (browser_result_success _ _ _ _ H).
Qed.

End BrowserStrategies.

Lemma browser_success_is_bounded_witness :
  exists title_text article_content,
    fst (fetch_with_selenium (rendering "Moscow summit" (Fixtures.article_page long_text))
                             url start)
    = mkFetchResult true (Some title_text) (Some article_content) (Some url)
                    (Some "selenium") None None None None None
    /\ 100 < Py.len article_content <= 5000.
Proof.
  apply (proj1 (browser_success_is_bounded unit
                  (rendering "Moscow summit" (Fixtures.article_page long_text))
                  url start)).
  reflexivity.
Defined.

(** *** The code fence *)

Section CodeFence.

Import Fence.

Lemma prefix_of_append (needle rest : string) :
  String.prefix needle (needle ++ rest) = true.
Proof.
  induction needle as [|c needle IH]; cbn [String.append String.prefix].
  - destruct rest; reflexivity.
  - destruct (ascii_dec c c); [exact IH | contradiction].
Qed.

Lemma str_in_middle (needle before rest : string) :
  Py.str_in needle (before ++ needle ++ rest) = true.
Proof.
  induction before as [|c before IH]; cbn [String.append].
  - destruct (needle ++ rest)%string eqn:E; cbn [Py.str_in];
      rewrite <- E, prefix_of_append; reflexivity.
  - cbn [Py.str_in]. rewrite IH. apply orb_true_r.
Qed.

Lemma len_append (a b : string) : Py.len (a ++ b) = Py.len a + Py.len b.
Proof. unfold Py.len. induction a; cbn; [reflexivity | rewrite IHa; reflexivity]. Qed.

Lemma drop_append (a b : string) (k : nat) :
  drop (Py.len a + k) (a ++ b) = drop k b.
Proof. induction a as [|c a IH]; [reflexivity | exact IH]. Qed.

Lemma take_append (a b : string) : Py.take (Py.len a) (a ++ b) = a.
Proof.
  unfold Py.len. induction a as [|c a IH]; cbn; [destruct b; reflexivity|].
  rewrite IH. reflexivity.
Qed.

Lemma take_whole (n : nat) (s : string) : Py.len s <= n -> Py.take n s = s.
Proof.
  unfold Py.len. revert n; induction s as [|c s IH]; intros [|n] H; cbn in *;
    try reflexivity; try lia.
  rewrite IH by lia. reflexivity.
Qed.

(** a search for a fence runs over a text without backquotes *)
Lemma first_index_after_plain (tail before rest : string) :
  plain before ->
  first_index (String "`" tail) (before ++ rest)
  = option_map (Nat.add (Py.len before)) (first_index (String "`" tail) rest).
Proof.
  unfold plain. induction before as [|c before IH]; intros Hplain.
  - cbn [String.append Py.len String.length Nat.add].
    destruct (first_index (String "`" tail) rest); reflexivity.
  - cbn [Py.existsb_char] in Hplain. apply orb_false_elim in Hplain as [Hc Hplain].
    cbn [String.append first_index String.prefix].
    destruct (ascii_dec "`" c) as [<-|_]; [vm_compute in Hc; discriminate|].
    rewrite (IH Hplain).
    destruct (first_index (String "`" tail) rest); reflexivity.
Qed.

Lemma first_index_here (needle rest : string) :
  first_index needle (needle ++ rest) = Some 0.
Proof.
  destruct (needle ++ rest)%string eqn:E; cbn [first_index];
    rewrite <- E, prefix_of_append; reflexivity.
Qed.

Lemma first_index_plain (tail s : string) :
  plain s -> first_index (String "`" tail) s = None.
Proof.
  unfold plain. induction s as [|c s IH]; intros Hplain; [reflexivity|].
  cbn [Py.existsb_char] in Hplain. apply orb_false_elim in Hplain as [Hc Hplain].
  cbn [first_index String.prefix].
  destruct (ascii_dec "`" c) as [<-|_]; [vm_compute in Hc; discriminate|].
  rewrite (IH Hplain). reflexivity.
Qed.

Lemma slice_between (first count : nat) (s : string) :
  slice (Z.of_nat first) (Z.of_nat (first + count)) s = Py.take count (drop first s).
Proof.
  unfold slice. destruct (Z.leb_spec 0 (Z.of_nat (first + count))); [|lia].
  rewrite !Nat2Z.id. f_equal. lia.
Qed.

(** X29: a JSON text between a json fence and a closing fence is taken
    out whole: when neither the text before the fence nor the JSON text
    holds a backquote, what is handed to the parser is the JSON text,
    stripped, whatever follows the closing fence. *)
Theorem fenced_json_is_taken_out (before body after : string) :
  plain before -> plain body ->
  unfenced (before ++ json_fence ++ body ++ fence ++ after) = Py.strip body.
Proof.
  intros Hbefore Hbody. unfold unfenced.
  rewrite str_in_middle. cbv zeta.
  assert (E1 : find json_fence 0 (before ++ json_fence ++ body ++ fence ++ after)
               = Z.of_nat (Py.len before)).
  { unfold find. cbn [drop]. unfold json_fence at 1.
    rewrite (first_index_after_plain _ _ _ Hbefore).
    fold json_fence. rewrite first_index_here. cbn [option_map]. f_equal; lia. }
  rewrite E1.
  replace (Z.of_nat (Py.len before) + 7)%Z with (Z.of_nat (Py.len before + 7)) by lia.
  rewrite Nat2Z.id.
  assert (Hdrop : drop (Py.len before + 7)
                       (before ++ json_fence ++ body ++ fence ++ after)
                  = (body ++ fence ++ after)%string).
  { rewrite drop_append. reflexivity. }
  assert (E2 : find fence (Py.len before + 7)
                    (before ++ json_fence ++ body ++ fence ++ after)
               = Z.of_nat (Py.len before + 7 + Py.len body)).
  { unfold find. rewrite Hdrop. unfold fence at 1.
    rewrite (first_index_after_plain _ _ _ Hbody).
    fold fence. rewrite first_index_here. cbn [option_map]. f_equal; lia. }
  rewrite E2, slice_between, Hdrop, take_append. reflexivity.
Qed.

(** X30: a json fence that is never closed costs the last character: the
    search for the closing fence answers -1, which as the end of the slice
    stands for the last position, so the text handed to the parser is the
    text after the fence without its last character. *)
Theorem unclosed_fence_drops_last (before body : string) :
  plain before -> plain body ->
  unfenced (before ++ json_fence ++ body)
  = Py.strip (Py.take (Py.len body - 1) body).
Proof.
  intros Hbefore Hbody. unfold unfenced.
  rewrite str_in_middle. cbv zeta.
  assert (E1 : find json_fence 0 (before ++ json_fence ++ body)
               = Z.of_nat (Py.len before)).
  { unfold find. cbn [drop]. unfold json_fence at 1.
    rewrite (first_index_after_plain _ _ _ Hbefore).
    fold json_fence. rewrite first_index_here. cbn [option_map]. f_equal; lia. }
  rewrite E1.
  replace (Z.of_nat (Py.len before) + 7)%Z with (Z.of_nat (Py.len before + 7)) by lia.
  rewrite Nat2Z.id.
  assert (Hdrop : drop (Py.len before + 7) (before ++ json_fence ++ body) = body).
  { rewrite drop_append. reflexivity. }
  assert (E2 : find fence (Py.len before + 7) (before ++ json_fence ++ body) = (-1)%Z).
  { unfold find. rewrite Hdrop. unfold fence.
    rewrite (first_index_plain _ _ Hbody). reflexivity. }
  rewrite E2. unfold slice. rewrite Nat2Z.id, Hdrop.
  destruct (Z.leb_spec 0 (-1)); [lia|].
  f_equal. f_equal. rewrite !len_append.
  change (Py.len json_fence) with 7. change (Z.to_nat (- -1)) with 1. lia.
Qed.

End CodeFence.

Lemma fenced_json_is_taken_out_witness :
  Fence.unfenced ("Here is the analysis:
" ++ Fence.json_fence ++ "
{ overall_score: 40 }
" ++ Fence.fence ++ "
Done.")
  = "{ overall_score: 40 }".
Proof.
  apply (fenced_json_is_taken_out "Here is the analysis:
" "
{ overall_score: 40 }
" "
Done."); reflexivity.
Defined.

Lemma unclosed_fence_drops_last_witness :
  Fence.unfenced ("" ++ Fence.json_fence ++ "{ overall_score: 40 }")
  = "{ overall_score: 40".
Proof.
  apply (unclosed_fence_drops_last "" "{ overall_score: 40 }"); reflexivity.
Defined.
